(** * Batch training with Ray Core: a shallow embedding

    The development embeds the Python functions of
    [doc/source/ray-core/examples/batch_training.ipynb]
    ([transform_batch], [fit_and_score_sklearn], [train_and_evaluate],
    [read_data], [task], [task_generator], [run], [read_into_object_store],
    [task_generator_with_object_store]) and states the properties of the
    orchestration layer over them.

    Python exceptions are the [Raise] results of an error monad; what the
    driver or a worker does that is visible from outside (lines printed,
    remote submissions, object-store puts, placement-group calls) is the
    trace of a writer monad layered over it.  Everything the notebook takes
    from a library (pyarrow, pandas, scikit-learn, numpy, Ray) is either a
    field of [World] or a small model marked as such. *)

From Stdlib Require Import String Ascii ZArith QArith Qabs Bool Lia
  Arith PeanoNat List Permutation Sorted.
Import ListNotations.

Local Open Scope string_scope.
Local Open Scope Z_scope.
Local Open Scope list_scope.

(** ** Exceptions and the two monads *)

Inductive Exn : Type :=
| OSError (file : string)        (* pq.read_table on a file it cannot open *)
| ArrowInvalid (what : string)   (* a column the file lacks, a value pandas
                                    cannot hold *)
| ValueError (what : string)     (* pd.to_datetime, sklearn input validation *)
| TypeError (what : string)
| EstimatorError (what : string) (* raised inside an estimator's fit/predict *)
| ObjectLostError.

Inductive Exc (A : Type) : Type :=
| Ok (a : A)
| Raise (e : Exn).
Arguments Ok {A} a.
Arguments Raise {A} e.

Definition bindE {A B} (m : Exc A) (k : A -> Exc B) : Exc B :=
  match m with
  | Ok a => k a
  | Raise e => Raise e
  end.

Notation "x <~ c ;; k" := (bindE c (fun x => k))
  (at level 61, c at next level, right associativity).

Fixpoint mapE {A B} (f : A -> Exc B) (l : list A) : Exc (list B) :=
  match l with
  | [] => Ok []
  | x :: xs => y <~ f x ;; ys <~ mapE f xs ;; Ok (y :: ys)
  end.

(* the results of a list of computations, or the first exception *)
Definition sequenceE {A} (l : list (Exc A)) : Exc (list A) :=
  mapE (fun r => r) l.

(** A partition key is a value of the [pickup_location_id] column; [None]
    is the null of that column. *)
Definition Key := option Z.

Inductive Msg : Type :=
| MsgTooSmall (i : Key)       (* "Dataframe for LocID: {i} is empty or smaller than 4" *)
| MsgTrainingTime (i : Key)   (* "Training time for LocID: {i}: ..." *)
| MsgLoadingTime (i : Key)    (* "Data loading time for LocID: {i}: ..." *)
| MsgTransformTime (i : Key)  (* "Data transform time for LocID: {i}: ..." *)
| MsgLoading (file : string)  (* "Loading {file}" *)
| MsgStarting                 (* "Starting run..." *)
| MsgBlank
| MsgTotal (count_not_none count : nat)
                              (* "Total number of models (all tasks): {} ({})" *)
| MsgTimeTaken.               (* "TOTAL TIME TAKEN: ... seconds" *)

Inductive RemoteFn : Type :=
| FitAndScoreSklearn (model : string)
| Task (file_name : string) (i : Key)
| ReadIntoObjectStore (file : string).

Inductive Event : Type :=
| Stdout (m : Msg)
| RayPut
| Remote (fn : RemoteFn)
| RayGet (n : nat)
| PlacementGroup (bundles : nat)   (* placement_group([{"CPU": 1}] * n, "SPREAD") *)
| PgReady
| RemovePlacementGroup.

(** A computation yields the trace it produced and then a value or the
    exception that stopped it. *)
Definition M (A : Type) : Type := (list Event * Exc A)%type.

Definition ret {A} (a : A) : M A := ([], Ok a).
Definition raise {A} (e : Exn) : M A := ([], Raise e).
Definition emit (e : Event) : M unit := ([e], Ok tt).
Definition liftE {A} (r : Exc A) : M A := ([], r).

Definition bind {A B} (m : M A) (k : A -> M B) : M B :=
  match m with
  | (tr, Ok a) => let '(tr', r) := k a in (tr ++ tr', r)
  | (tr, Raise e) => (tr, Raise e)
  end.

Notation "x <- c ;; k" := (bind c (fun x => k))
  (at level 61, c at next level, right associativity).
Notation "c ;;; k" := (bind c (fun _ => k))
  (at level 61, right associativity).

Definition trace {A} (m : M A) : list Event := fst m.
Definition outcome {A} (m : M A) : Exc A := snd m.

(** ** Data *)

(** A cell of a timestamp column as it is stored in the file: null, an
    Arrow timestamp (seconds), or text still to be parsed. *)
Inductive Cell : Type :=
| CNull
| CStamp (t : Z)
| CText (s : string).

Record RawRow : Type := mkRaw {
  pickup_at : Cell;
  dropoff_at : Cell;
  pickup_location_id : Key;
  dropoff_location_id : option Z
}.

(** A row after [transform_batch]: [None] in a timestamp is NaT, [None] in
    [trip_duration] is NaN. *)
Record Row : Type := mkRow {
  r_pickup_at : option Z;
  r_dropoff_at : option Z;
  r_pickup_location_id : Z;
  r_dropoff_location_id : Z;
  trip_duration : option Z
}.

Definition Table := list RawRow.
Definition DataFrame := list Row.

(** ** The world outside the notebook *)

(* a Parquet file: the columns it has and its rows; the fields of a row
   that belong to a column the file lacks are never read *)
Record ParquetFile : Type := mkFile {
  columns : list string;
  rows : Table
}.

Record World : Type := mkWorld {
  (* the Parquet files: [None] for a path that cannot be opened *)
  parquet : string -> option ParquetFile;
  (* the notebook's global flag *)
  PRINT_TIMES : bool;
  (* datetime parsing under the format "%Y-%m-%d %H:%M:%S", for text that
     is not one of the missing-value strings *)
  strptime : string -> option Z;
  (* whether Table.to_pandas() can convert a table: with nanosecond
     timestamps it raises on one outside the years 1678-2262 *)
  pandas_holds : Table -> bool
}.

(** A parser for the zero-padded spelling of the format, used to run the
    model on concrete tables.  It agrees with the library on strings of the
    form YYYY-MM-DD HH:MM:SS and on strings that hold no digit; a date that
    a nanosecond timestamp cannot hold is rejected. *)
Module Strptime.

(* the seconds since 1970 that fit in 64 bits of nanoseconds *)
Definition in_range (t : Z) : bool :=
  (-9223372036 <=? t) && (t <=? 9223372036).

Definition digit (c : ascii) : option Z :=
  let n := nat_of_ascii c in
  if ((48 <=? n) && (n <=? 57))%nat then Some (Z.of_nat (n - 48)) else None.

Definition two (a b : ascii) : option Z :=
  match digit a, digit b with
  | Some x, Some y => Some (10 * x + y)
  | _, _ => None
  end.

Definition four (a b c d : ascii) : option Z :=
  match two a b, two c d with
  | Some x, Some y => Some (100 * x + y)
  | _, _ => None
  end.

Definition is_leap (y : Z) : bool :=
  ((y mod 4 =? 0) && negb (y mod 100 =? 0)) || (y mod 400 =? 0).

Definition days_in_month (y m : Z) : Z :=
  if m =? 2 then (if is_leap y then 29 else 28)
  else if (m =? 4) || (m =? 6) || (m =? 9) || (m =? 11) then 30
  else 31.

(* days between 1970-01-01 and the civil date y-m-d *)
Definition days_from_civil (y m d : Z) : Z :=
  let y' := if m <=? 2 then y - 1 else y in
  let era := y' / 400 in
  let yoe := y' - era * 400 in
  let mp := if 2 <? m then m - 3 else m + 9 in
  let doy := (153 * mp + 2) / 5 + d - 1 in
  let doe := yoe * 365 + yoe / 4 - yoe / 100 + doy in
  era * 146097 + doe - 719468.

Definition assemble (y mo d h mi s : Z) : option Z :=
  if (1 <=? mo) && (mo <=? 12) && (1 <=? d) && (d <=? days_in_month y mo)
     && (h <? 24) && (mi <? 60) && (s <? 60)
  then
    let t := days_from_civil y mo d * 86400 + h * 3600 + mi * 60 + s in
    if in_range t then Some t else None
  else None.

Definition parse (s : string) : option Z :=
  match list_ascii_of_string s with
  | [y1; y2; y3; y4; "-"; m1; m2; "-"; d1; d2; " ";
     h1; h2; ":"; i1; i2; ":"; s1; s2]%char =>
      match four y1 y2 y3 y4, two m1 m2, two d1 d2,
            two h1 h2, two i1 i2, two s1 s2 with
      | Some y, Some mo, Some d, Some h, Some mi, Some sec =>
          assemble y mo d h mi sec
      | _, _, _, _, _, _ => None
      end
  | _ => None
  end.

End Strptime.


(** ** Library models *)

(** *** Choice tapes

    Two things in a run are not decided by the program: the numbers the
    random generator of a worker hands out, and the order in which Ray
    completes the tasks of a wave.  Both are a tape of naturals; a tape
    orders a list by picking, at each step, one of the elements that are
    left.  Every tape orders every list; a tape that runs out picks the
    head. *)

Fixpoint pick {A} (n : nat) (l : list A) {struct l} : option (A * list A) :=
  match l with
  | [] => None
  | x :: xs =>
      match n with
      | O => Some (x, xs)
      | S n' =>
          match pick n' xs with
          | Some (y, r) => Some (y, x :: r)
          | None => None
          end
      end
  end.

Fixpoint draw_order {A} (fuel : nat) (tape : list nat) (pending : list A)
  : list A * list nat :=
  match fuel with
  | O => ([], tape)
  | S fuel' =>
      match pick (Nat.modulo (hd O tape) (length pending)) pending with
      | Some (x, rest) =>
          let '(out, tape') := draw_order fuel' (tl tape) rest in
          (x :: out, tape')
      | None => ([], tape)
      end
  end.

Definition shuffle {A} (tape : list nat) (l : list A) : list A * list nat :=
  draw_order (length l) tape l.

(** *** numpy and scikit-learn *)

(* rng.permutation(n) *)
Definition np_permutation (rng : list nat) (n : nat) : list nat * list nat :=
  shuffle rng (seq 0 n).

(* a.iloc[indices] *)
Definition iloc {A} (a : list A) (indices : list nat) : list A :=
  flat_map (fun i => match nth_error a i with
                     | Some r => [r]
                     | None => []
                     end) indices.

(** train_test_split(df) with every option at its default: test_size 0.25,
    shuffle, and random_state None, which is the worker's global generator.
    The function returns the generator as it leaves it. *)
Definition train_test_split {A} (rng : list nat) (df : list A)
  : Exc (list A * list A * list nat) :=
  let n_samples := length df in
  let n_test := Nat.div (n_samples + 3) 4 in          (* ceil(0.25 * n) *)
  let n_train := (n_samples - n_test)%nat in
  if (n_train =? 0)%nat then
    Raise (ValueError "the resulting train set will be empty")
  else
    let '(permutation, rng') := np_permutation rng n_samples in
    let ind_test := firstn n_test permutation in
    let ind_train := firstn n_train (skipn n_test permutation) in
    Ok (iloc df ind_train, iloc df ind_test, rng').

Fixpoint all_finite (y : list (option Z)) : option (list Z) :=
  match y with
  | [] => Some []
  | Some v :: y' =>
      match all_finite y' with
      | Some vs => Some (v :: vs)
      | None => None
      end
  | None :: _ => None
  end.

Definition Qsum (l : list Q) : Q := fold_right Qplus 0%Q l.

Fixpoint abs_errors (y : list Z) (p : list Q) : list Q :=
  match y, p with
  | a :: y', b :: p' => Qabs (inject_Z a - b) :: abs_errors y' p'
  | _, _ => []
  end.

(* sklearn.metrics.mean_absolute_error(y_true, y_pred) *)
Definition mean_absolute_error (y_true : list (option Z)) (y_pred : list Q)
  : Exc Q :=
  if negb (length y_true =? length y_pred)%nat then
    Raise (ValueError "inconsistent numbers of samples")
  else
    match all_finite y_true with
    | None => Raise (ValueError "Input contains NaN")
    | Some ys =>
        if (length ys =? 0)%nat then
          Raise (ValueError "Found array with 0 sample(s)")
        else
          Ok (Qred (Qsum (abs_errors ys y_pred)
                    / inject_Z (Z.of_nat (length ys))))
    end.

Set Warnings "-register-all".

(** An estimator is an object with the two methods the notebook calls.
    [fit] returns the fitted estimator (scikit-learn returns self). *)
Inductive BaseEstimator : Type :=
| Estimator (repr : string)
            (fit : list Z -> list (option Z) -> Exc BaseEstimator)
            (predict : list Z -> Exc (list Q)).

Definition repr (m : BaseEstimator) : string :=
  match m with Estimator r _ _ => r end.
Definition fit (m : BaseEstimator) :=
  match m with Estimator _ f _ => f end.
Definition predict (m : BaseEstimator) :=
  match m with Estimator _ _ p => p end.

(** *** pyarrow *)

Definition key_eqb (a b : Key) : bool :=
  match a, b with
  | Some x, Some y => x =? y
  | None, None => true
  | _, _ => false
  end.

(* column.unique(): the distinct values in order of first appearance, the
   null among them *)
Fixpoint unique (l : list Key) : list Key :=
  match l with
  | [] => []
  | x :: xs => x :: filter (fun y => negb (key_eqb x y)) (unique xs)
  end.

(* the predicate ("pickup_location_id", "=", i): a null compares equal to
   nothing *)
Definition key_matches (i v : Key) : bool :=
  match i, v with
  | Some a, Some b => a =? b
  | _, _ => false
  end.

Definition key_column : list string := ["pickup_location_id"].

Definition all_columns : list string :=
  ["pickup_at"; "dropoff_at"; "pickup_location_id"; "dropoff_location_id"].

Definition has_columns (f : ParquetFile) (cols : list string) : bool :=
  forallb (fun col => existsb (String.eqb col) (columns f)) cols.

(** pq.read_table(file, columns=cols): [None] when the call raises, for a
    path that cannot be opened or a file that lacks one of the columns
    asked for. *)
Definition read_table (w : World) (file : string) (cols : list string)
  : option Table :=
  match parquet w file with
  | Some f => if has_columns f cols then Some (rows f) else None
  | None => None
  end.

(* the exception pq.read_table raises when it does *)
Definition read_error (w : World) (file : string) : Exn :=
  match parquet w file with
  | Some _ => ArrowInvalid "No match for FieldRef"
  | None => OSError file
  end.

(* table.to_pandas() *)
Definition to_pandas (w : World) (t : Table) : Exc Table :=
  if pandas_holds w t then Ok t
  else Raise (ArrowInvalid "out of bounds timestamp").

(** *** pandas *)

(* the strings pd.to_datetime reads as a missing value *)
Definition nat_strings : list string :=
  ["NaT"; "nat"; "NAT"; "nan"; "NaN"; "NAN"].

Definition is_missing_text (s : string) : bool :=
  String.eqb s "" || existsb (String.eqb s) nat_strings.

(** *** list.sort(key=...)

    Python's sort is stable and compares keys with [<] only; insertion
    from the right is the simplest sort with both properties. *)

Definition Qltb (x y : Q) : bool := negb (Qle_bool y x).

Fixpoint insert_by {A} (key : A -> Q) (x : A) (l : list A) : list A :=
  match l with
  | [] => [x]
  | y :: l' =>
      if Qltb (key y) (key x) then y :: insert_by key x l'
      else x :: y :: l'
  end.

Definition list_sort {A} (key : A -> Q) (l : list A) : list A :=
  fold_right (insert_by key) [] l.

(* ascending by key *)
Definition key_le {A} (key : A -> Q) (a b : A) : Prop :=
  (key a <= key b)%Q.

(** *** Ray

    A wave of remote tasks completes in the order a schedule picks; the
    object store then holds each result under the reference the submission
    returned (its position in the wave).  [ray.get] on the list of
    references raises as soon as one of the tasks has failed, with the
    exception of the task that failed first; when none fails it returns the
    results in the order of the list. *)

Definition run_tasks {A} (sched : list nat) (tasks : list (Exc A))
  : list (nat * Exc A) :=
  fst (shuffle sched (combine (seq 0 (length tasks)) tasks)).

Fixpoint store_lookup {A} (store : list (nat * A)) (ref : nat) : option A :=
  match store with
  | [] => None
  | (r, v) :: store' => if (r =? ref)%nat then Some v else store_lookup store' ref
  end.

Definition ray_get_one {A} (store : list (nat * Exc A)) (ref : nat) : Exc A :=
  match store_lookup store ref with
  | Some r => r
  | None => Raise ObjectLostError
  end.

(* the first exception among results taken in the order given *)
Fixpoint first_error {A} (results : list (Exc A)) : option Exn :=
  match results with
  | [] => None
  | Ok _ :: rest => first_error rest
  | Raise e :: _ => Some e
  end.

(* what the wait on a wave of tasks ends with *)
Definition ray_wait {A} (sched : list nat) (tasks : list (Exc A))
  : Exc (list A) :=
  let store := run_tasks sched tasks in
  match first_error (map snd store) with
  | Some e => Raise e
  | None => mapE (ray_get_one store) (seq 0 (length tasks))
  end.

(* ray.get(refs) for the references of one wave *)
Definition ray_get {A} (sched : list nat) (tasks : list (Exc A))
  : M (list A) :=
  emit (RayGet (length tasks)) ;;;
  liftE (ray_wait sched tasks).

(* placement_group([{"CPU": 1}] * n, strategy="SPREAD"): an empty list of
   bundles is refused *)
Definition placement_group (bundles : nat) : M unit :=
  if (bundles =? 0)%nat then
    raise (ValueError "bundles must be a non-empty list")
  else emit (PlacementGroup bundles).

(* ray.put(value): the reference stands for the value *)
Definition ray_put {A} (v : A) : M A := emit RayPut ;;; ret v.

(* fn.remote(args): the submission is recorded, the task is what it will
   compute *)
Definition remote {A} (fn : RemoteFn) (body : A) : M A :=
  emit (Remote fn) ;;; ret body.

Fixpoint mapM {A B} (f : A -> M B) (l : list A) : M (list B) :=
  match l with
  | [] => ret []
  | x :: xs => y <- f x ;; ys <- mapM f xs ;; ret (y :: ys)
  end.

(** What a worker process brings to a task: the state of its random
    generator and the order in which the units it submits complete. *)
Record Worker : Type := mkWorker {
  rng : list nat;
  units_sched : list nat
}.

(** What the cluster decides during a run: the worker each submitted
    pipeline lands on (by submission index) and the completion order of the
    two waves the driver waits for. *)
Record Cluster : Type := mkCluster {
  workers : nat -> Worker;
  driver_sched : list nat;
  staging_sched : list nat
}.

(* a dict keeps the position of a key it already holds *)
Fixpoint dict_set {V} (d : list (string * V)) (k : string) (v : V)
  : list (string * V) :=
  match d with
  | [] => [(k, v)]
  | (k', v') :: d' =>
      if String.eqb k' k then (k', v) :: d'
      else (k', v') :: dict_set d' k v
  end.

(* "We need at least 4 rows to create a train / test split." *)
Definition min_rows_per_partition : nat := 4.

Definition TrainerResult : Type := (BaseEstimator * Q)%type.

(** ** fit_and_score_sklearn *)

Definition fit_and_score_sklearn (train test : DataFrame)
  (model : BaseEstimator) : Exc TrainerResult :=
  let train_X := map r_dropoff_location_id train in
  let train_y := map trip_duration train in
  let test_X := map r_dropoff_location_id test in
  let test_y := map trip_duration test in
  model <~ fit model train_X train_y ;;
  pred_y <~ predict model test_X ;;
  error <~ mean_absolute_error test_y pred_y ;;
  Ok (model, error).

Section Notebook.

Variable w : World.
Variable c : Cluster.

(** ** print_time *)

(* def print_time(msg): if PRINT_TIMES: print(msg) *)
Definition print_time (msg : Msg) : M unit :=
  if PRINT_TIMES w then emit (Stdout msg) else ret tt.

(* print(msg) *)
Definition print (msg : Msg) : M unit := emit (Stdout msg).

(** ** transform_batch *)

(** pd.to_datetime(column, format=...): a null becomes NaT, a timestamp is
    kept, the empty string and the missing-value strings become NaT, other
    text is parsed, and text that does not parse raises for the whole
    column (the default errors="raise"). *)
Definition to_datetime_cell (c : Cell) : Exc (option Z) :=
  match c with
  | CNull => Ok None
  | CStamp t => Ok (Some t)
  | CText s =>
      if is_missing_text s then Ok None
      else
        match strptime w s with
        | Some t => Ok (Some t)
        | None => Raise (ValueError s)
        end
  end.

Definition to_datetime (col : list Cell) : Exc (list (option Z)) :=
  mapE to_datetime_cell col.

(** (dropoff - pickup).dt.seconds: the seconds component of the timedelta,
    which pandas keeps in 0..86399; NaN when either side is NaT. *)
Definition dt_seconds (dropoff pickup : option Z) : option Z :=
  match dropoff, pickup with
  | Some d, Some p => Some ((d - p) mod 86400)
  | _, _ => None
  end.

(* column.fillna(-1) *)
Definition fillna (v : option Z) : Z :=
  match v with
  | Some x => x
  | None => -1
  end.

Definition transformed_row (r : RawRow) (pd : option Z * option Z) : Row :=
  {| r_pickup_at := fst pd;
     r_dropoff_at := snd pd;
     r_pickup_location_id := fillna (pickup_location_id r);
     r_dropoff_location_id := fillna (dropoff_location_id r);
     trip_duration := dt_seconds (snd pd) (fst pd) |}.

Fixpoint assign_columns (df : Table) (cols : list (option Z * option Z))
  : DataFrame :=
  match df, cols with
  | r :: df', pd :: cols' => transformed_row r pd :: assign_columns df' cols'
  | _, _ => []
  end.

Definition transform_batch (df : Table) : Exc DataFrame :=
  pickups <~ to_datetime (map pickup_at df) ;;
  dropoffs <~ to_datetime (map dropoff_at df) ;;
  Ok (assign_columns df (combine pickups dropoffs)).

(** ** train_and_evaluate *)

Definition train_and_evaluate (wk : Worker) (df : DataFrame)
  (models : list BaseEstimator) (i : Key)
  : M (option (list TrainerResult)) :=
  if (length df <? min_rows_per_partition)%nat then
    print_time (MsgTooSmall i) ;;;
    ret None
  else
    split <- liftE (train_test_split (rng wk) df) ;;
    let '(train, test, _) := split in
    train_ref <- ray_put train ;;
    test_ref <- ray_put test ;;
    refs <- mapM (fun model =>
                    remote (FitAndScoreSklearn (repr model))
                           (fit_and_score_sklearn train_ref test_ref model))
                 models ;;
    results <- ray_get (units_sched wk) refs ;;
    let results := list_sort snd results in
    print_time (MsgTrainingTime i) ;;;
    ret (Some results).

(** ** read_data *)

Definition read_data (file : string) (i : Key) : Exc Table :=
  match read_table w file all_columns with
  | None => Raise (read_error w file)
  | Some t =>
      to_pandas w (filter (fun r => key_matches i (pickup_location_id r)) t)
  end.

(** ** task *)

(* data: Union[str, pd.DataFrame] *)
Inductive TaskData : Type :=
| PathData (file : string)
| FrameData (df : Table).

Definition PipelineResult : Type :=
  (string * Key * option (list TrainerResult))%type.

Definition task (wk : Worker) (data : TaskData) (file_name : string)
  (i : Key) (models : list BaseEstimator)
  (load_data_func : option (string -> Key -> Exc Table))
  : M PipelineResult :=
  data <- match load_data_func with
          | Some load =>
              df <- match data with
                    | PathData file => liftE (load file i)
                    | FrameData _ => raise (TypeError "expected a path")
                    end ;;
              print_time (MsgLoadingTime i) ;;;
              ret (FrameData df)
          | None => ret data
          end ;;
  (* i = i.as_py() leaves the value of the key as it is *)
  df <- match data with
        | FrameData df => liftE (transform_batch df)
        | PathData _ => raise (TypeError "string indices must be integers")
        end ;;
  print_time (MsgTransformTime i) ;;;
  ranked <- train_and_evaluate wk df models i ;;
  ret (file_name, i, ranked).

(** ** task_generator *)

(* for i in loc_list: yield task.remote(file, file, i, models, read_data) *)
Fixpoint yield_tasks (j : nat) (file : string) (loc_list : list Key)
  (models : list BaseEstimator) : M (list (M PipelineResult)) :=
  match loc_list with
  | [] => ret []
  | i :: rest =>
      t <- remote (Task file i)
             (task (workers c j) (PathData file) file i models
                   (Some read_data)) ;;
      ts <- yield_tasks (S j) file rest models ;;
      ret (t :: ts)
  end.

Fixpoint task_generator_from (j : nat) (files : list string)
  (models : list BaseEstimator) : M (list (M PipelineResult)) :=
  match files with
  | [] => ret []
  | file :: rest =>
      match read_table w file key_column with
      | None => task_generator_from j rest models      (* except: continue *)
      | Some locdf =>
          let loc_list := unique (map pickup_location_id locdf) in
          ts <- yield_tasks j file loc_list models ;;
          ts' <- task_generator_from (j + length loc_list) rest models ;;
          ret (ts ++ ts')
      end
  end.

Definition task_generator (files : list string)
  (models : list BaseEstimator) : M (list (M PipelineResult)) :=
  task_generator_from 0 files models.

(** ** run *)

(* x is not None, for x a tuple returned by task *)
Definition is_not_None (x : PipelineResult) : bool := true.

Definition run (files : list string)
  (task_generator : list string -> list BaseEstimator ->
                    M (list (M PipelineResult)))
  (models : list BaseEstimator) : M (list PipelineResult) :=
  print MsgStarting ;;;
  task_refs <- task_generator files models ;;
  results <- ray_get (driver_sched c) (map outcome task_refs) ;;
  let count := length results in
  let results_not_none := filter is_not_None results in
  let count_not_none := length results_not_none in
  print MsgBlank ;;;
  print (MsgTotal count_not_none count) ;;;
  print MsgTimeTaken ;;;
  ret results.

(** ** read_into_object_store *)

Definition read_into_object_store (file : string)
  : M (list (Key * Table)) :=
  print (MsgLoading file) ;;;
  match read_table w file all_columns with
  | None => ret []                                      (* except: return [] *)
  | Some locdf =>
      let loc_list := unique (map pickup_location_id locdf) in
      mapM (fun i =>
              df <- liftE (to_pandas w
                             (filter (fun r =>
                                        key_matches i (pickup_location_id r))
                                     locdf)) ;;
              ref <- ray_put df ;;
              ret (i, ref))
           loc_list
  end.

(** ** task_generator_with_object_store *)

(* for i, ref in refs: yield task.remote(ref, file, i, models) *)
Fixpoint yield_staged (j : nat) (file : string) (refs : list (Key * Table))
  (models : list BaseEstimator) : M (list (M PipelineResult)) :=
  match refs with
  | [] => ret []
  | (i, ref) :: rest =>
      t <- remote (Task file i)
             (task (workers c j) (FrameData ref) file i models None) ;;
      ts <- yield_staged (S j) file rest models ;;
      ret (t :: ts)
  end.

(* for file, refs in group_refs.items(): ... *)
Fixpoint yield_groups (j : nat) (group_refs : list (string * list (Key * Table)))
  (models : list BaseEstimator) : M (list (M PipelineResult)) :=
  match group_refs with
  | [] => ret []
  | (file, refs) :: rest =>
      ts <- yield_staged j file refs models ;;
      ts' <- yield_groups (j + length refs) rest models ;;
      ret (ts ++ ts')
  end.

Definition task_generator_with_object_store (files : list string)
  (models : list BaseEstimator) : M (list (M PipelineResult)) :=
  placement_group (length files) ;;;
  emit PgReady ;;;                                  (* ray.get(pg.ready()) *)
  load_tasks <- mapM (fun file =>
                        remote (ReadIntoObjectStore file)
                               (read_into_object_store file))
                     files ;;
  loaded <- ray_get (staging_sched c) (map outcome load_tasks) ;;
  let group_refs :=
    fold_left (fun d fr => dict_set d (fst fr) (snd fr))
              (combine files loaded) [] in
  emit RemovePlacementGroup ;;;
  yield_groups 0 group_refs models.

End Notebook.


(** ** Vocabulary of the statements *)

(** The (source, key) pairs the partition locator of [task_generator]
    finds: per file in the order given, the distinct keys of the file in
    order of first appearance; nothing for a file whose key column cannot
    be read. *)
Definition located (w : World) (files : list string) : list (string * Key) :=
  flat_map (fun file =>
              match read_table w file key_column with
              | Some locdf =>
                  map (pair file) (unique (map pickup_location_id locdf))
              | None => []
              end) files.

(* the (file name, key) of a pipeline result *)
Definition partition_of (r : PipelineResult) : string * Key := fst r.

Definition is_remote (e : Event) : bool :=
  match e with
  | Remote _ => true
  | _ => false
  end.

Definition is_report (e : Event) : bool :=
  match e with
  | Stdout (MsgTotal _ _) => true
  | _ => false
  end.


(* what print_time leaves on standard output *)
Definition printed_time (w : World) (msg : Msg) : list Event :=
  if PRINT_TIMES w then [Stdout msg] else [].

(** The pipelines [task_generator] submits for a list of located pairs,
    the first of them on the worker of submission index [j]. *)
Fixpoint pipelines_from (w : World) (c : Cluster) (j : nat)
  (pairs : list (string * Key)) (models : list BaseEstimator)
  : list (M PipelineResult) :=
  match pairs with
  | [] => []
  | (file, i) :: rest =>
      task w (workers c j) (PathData file) file i models (Some (read_data w))
      :: pipelines_from w c (S j) rest models
  end.

(* the same cluster with another completion order for the driver's wave *)
Definition with_driver_sched (c : Cluster) (sched : list nat) : Cluster :=
  mkCluster (workers c) sched (staging_sched c).

(* what transform_batch makes of one row *)
Definition transformed (w : World) (r : RawRow) (o : Row) : Prop :=
  to_datetime_cell w (pickup_at r) = Ok (r_pickup_at o) /\
  to_datetime_cell w (dropoff_at r) = Ok (r_dropoff_at o) /\
  r_pickup_location_id o = fillna (pickup_location_id r) /\
  r_dropoff_location_id o = fillna (dropoff_location_id r) /\
  trip_duration o = dt_seconds (r_dropoff_at o) (r_pickup_at o).

(* the rows of a table whose pickup_location_id equals the key *)
Definition rows_of (t : Table) (i : Key) : Table :=
  filter (fun r => key_matches i (pickup_location_id r)) t.

(** What [read_into_object_store] returns for a file when it returns: per
    distinct key the rows of that key, nothing when the four columns of the
    file cannot be read. *)
Definition staged_groups (w : World) (file : string) : list (Key * Table) :=
  match read_table w file all_columns with
  | Some locdf =>
      map (fun i => (i, rows_of locdf i))
          (unique (map pickup_location_id locdf))
  | None => []
  end.

(* a load task that returns *)
Definition load_returns (w : World) (file : string) : Prop :=
  exists groups, outcome (read_into_object_store w file) = Ok groups.

(* the dict group_refs of task_generator_with_object_store *)
Definition group_refs_of (w : World) (files : list string)
  : list (string * list (Key * Table)) :=
  fold_left (fun d fr => dict_set d (fst fr) (snd fr))
            (combine files (map (staged_groups w) files)) [].

(* the (source, key) pairs the staged generator submits pipelines for *)
Definition pairs_of_groups (groups : list (string * list (Key * Table)))
  : list (string * Key) :=
  flat_map (fun g => map (fun kr => (fst g, fst kr)) (snd g)) groups.

Definition staged_pairs (w : World) (files : list string)
  : list (string * Key) :=
  pairs_of_groups (group_refs_of w files).

(** The pipelines [task_generator_with_object_store] submits for the
    groups of the dict, the first of them on the worker of submission
    index [j]. *)
Fixpoint staged_from (w : World) (c : Cluster) (j : nat) (file : string)
  (refs : list (Key * Table)) (models : list BaseEstimator)
  : list (M PipelineResult) :=
  match refs with
  | [] => []
  | (i, ref) :: rest =>
      task w (workers c j) (FrameData ref) file i models None
      :: staged_from w c (S j) file rest models
  end.

Fixpoint groups_from (w : World) (c : Cluster) (j : nat)
  (groups : list (string * list (Key * Table))) (models : list BaseEstimator)
  : list (M PipelineResult) :=
  match groups with
  | [] => []
  | (file, refs) :: rest =>
      staged_from w c j file refs models
      ++ groups_from w c (j + length refs) rest models
  end.

(* a pipeline that returns *)
Definition returns {A} (m : M A) : Prop := exists a, outcome m = Ok a.

(** ** Sample data *)

Module Sample.

(* an estimator that predicts [v] for every row once it is fitted *)
Definition fitted_constant (name : string) (v : Q) : BaseEstimator :=
  Estimator name
    (fun _ _ => Raise (EstimatorError "fitted twice"))
    (fun X => Ok (map (fun _ => v) X)).

Definition constant (name : string) (v : Q) : BaseEstimator :=
  Estimator name
    (fun _ _ => Ok (fitted_constant name v))
    (fun _ => Raise (EstimatorError "not fitted")).

(* an estimator whose fit raises *)
Definition broken (name : string) : BaseEstimator :=
  Estimator name
    (fun _ _ => Raise (EstimatorError name))
    (fun _ => Raise (EstimatorError "not fitted")).

Definition trip (pickup dropoff : string) (loc dest : Z) : RawRow :=
  mkRaw (CText pickup) (CText dropoff) (Some loc) (Some dest).

(* four trips from location 1, one from location 2 *)
Definition may : Table :=
  [ trip "2019-05-01 00:00:00" "2019-05-01 00:10:00" 1 7;
    trip "2019-05-01 01:00:00" "2019-05-01 01:20:00" 1 8;
    trip "2019-05-01 02:00:00" "2019-05-01 02:30:00" 2 9;
    trip "2019-05-01 03:00:00" "2019-05-01 03:30:00" 1 9;
    trip "2019-05-01 04:00:00" "2019-05-01 04:40:00" 1 7 ].

(* the same with a trip from location 3 whose pickup time is not a date *)
Definition may_dirty : Table :=
  may ++ [ trip "n/a" "2019-05-01 05:40:00" 3 7 ].

(* four trips from location 5, one of them without a destination *)
Definition june : Table :=
  [ trip "2019-06-01 00:00:00" "2019-06-01 00:05:00" 5 7;
    mkRaw (CStamp 1559350800) (CStamp 1559351400) (Some 5) None;
    trip "2019-06-01 02:00:00" "2019-06-01 02:15:00" 5 9;
    trip "2019-06-01 03:00:00" "2019-06-01 03:20:00" 5 7 ].

(* the June trips with one whose pickup is stamped in the year 2500 *)
Definition june_far : Table :=
  june ++ [ mkRaw (CStamp 16725225600) (CStamp 16725226200) (Some 6) (Some 7) ].

Definition files_of (may_table june_table : Table) (file : string)
  : option ParquetFile :=
  if String.eqb file "may.parquet" then Some (mkFile all_columns may_table)
  else if String.eqb file "june.parquet" then
    Some (mkFile all_columns june_table)
  else None.

(* pandas with nanosecond timestamps *)
Definition stamp_fits (c : Cell) : bool :=
  match c with
  | CStamp t => Strptime.in_range t
  | _ => true
  end.

Definition holds (t : Table) : bool :=
  forallb (fun r => stamp_fits (pickup_at r) && stamp_fits (dropoff_at r)) t.

Definition world : World :=
  mkWorld (files_of may june) false Strptime.parse holds.
Definition world_verbose : World :=
  mkWorld (files_of may june) true Strptime.parse holds.
Definition world_dirty : World :=
  mkWorld (files_of may_dirty june) false Strptime.parse holds.
Definition world_far : World :=
  mkWorld (files_of may june_far) false Strptime.parse holds.

Definition worker : Worker := mkWorker [3; 1; 4; 1; 5]%nat [1; 0]%nat.

Definition cluster : Cluster :=
  mkCluster (fun _ => worker) [2; 0; 1]%nat [1]%nat.

Definition models : list BaseEstimator :=
  [constant "A" 600%Q; constant "B" 600%Q; constant "C" 1200%Q].

(* location 1 of May after transform_batch *)
Definition batch : DataFrame :=
  [ mkRow (Some 1556668800) (Some 1556669400) 1 7 (Some 600);
    mkRow (Some 1556672400) (Some 1556673600) 1 8 (Some 1200);
    mkRow (Some 1556679600) (Some 1556681400) 1 9 (Some 1800);
    mkRow (Some 1556683200) (Some 1556685600) 1 7 (Some 2400) ].

End Sample.

(** ** Vocabulary of the further properties *)

Definition is_stdout (e : Event) : bool :=
  match e with
  | Stdout _ => true
  | _ => false
  end.

(* what a trace holds besides printed lines: the calls made to Ray *)
Definition actions (tr : list Event) : list Event :=
  filter (fun e => negb (is_stdout e)) tr.

(* the same world with PRINT_TIMES set to [flag] *)
Definition with_print_times (w : World) (flag : bool) : World :=
  mkWorld (parquet w) flag (strptime w) (pandas_holds w).

(* a row whose pickup_location_id is not null *)
Definition has_key (r : RawRow) : bool :=
  match pickup_location_id r with
  | Some _ => true
  | None => false
  end.

(* a file whose key column pq.read_table can read *)
Definition readable (w : World) (file : string) : bool :=
  match read_table w file key_column with
  | Some _ => true
  | None => false
  end.

(** The keys of a dict filled by assigning to the elements of a list in
    turn: each distinct element once, at the place of its first
    occurrence. *)
Definition add_key (ks : list string) (k : string) : list string :=
  if existsb (String.eqb k) ks then ks else ks ++ [k].

Definition dict_keys (files : list string) : list string :=
  fold_left add_key files [].

(* the least error of a ranking is at its head *)
Definition best_first (ranked : list TrainerResult) : Prop :=
  match ranked with
  | [] => True
  | best :: _ => Forall (fun r => (snd best <= snd r)%Q) ranked
  end.

(** ** More sample data *)

Module Sample2.

(* a trip over midnight of more than a day, a trip that ends before it
   starts, a trip without a pickup time *)
Definition odd_trips : Table :=
  [ Sample.trip "2019-05-01 23:50:00" "2019-05-03 00:10:00" 1 7;
    Sample.trip "2019-05-01 10:00:00" "2019-05-01 09:59:00" 1 7;
    mkRaw CNull (CText "2019-05-01 09:59:00") (Some 1) (Some 7) ].


End Sample2.


(** * Properties *)

Example parse_may_first :
  Strptime.parse "2019-05-01 00:00:00" = Some 1556668800.
Proof. reflexivity. Qed.

Example parse_garbage : Strptime.parse "n/a" = None.
Proof. reflexivity. Qed.

(** ** The two monads *)

Lemma outcome_pair {A} (tr : list Event) (r : Exc A) : outcome (tr, r) = r.
Proof. reflexivity. Qed.

Lemma trace_pair {A} (tr : list Event) (r : Exc A) : trace (tr, r) = tr.
Proof. reflexivity. Qed.


Lemma mapE_map {A B C} (f : B -> Exc C) (g : A -> B) (l : list A) :
  mapE f (map g l) = mapE (fun x => f (g x)) l.
Proof.
  induction l as [|x l IH]; simpl; [reflexivity|].
  now rewrite IH.
Qed.

Lemma mapE_ext {A B} (f g : A -> Exc B) (l : list A) :
  (forall x, In x l -> f x = g x) -> mapE f l = mapE g l.
Proof.
  induction l as [|x l IH]; simpl; intros H; [reflexivity|].
  rewrite (H x (or_introl eq_refl)), IH; auto.
Qed.

Lemma mapE_Ok_Forall2 {A B} (f : A -> Exc B) (l : list A) (l' : list B) :
  mapE f l = Ok l' <-> Forall2 (fun x y => f x = Ok y) l l'.
Proof.
  revert l'; induction l as [|x l IH]; simpl; intros l'.
  - split; intros H.
    + injection H as <-. constructor.
    + inversion H. reflexivity.
  - split; intros H.
    + destruct (f x) as [y|e] eqn:Ex; simpl in H; [|discriminate].
      destruct (mapE f l) as [ys|e] eqn:El; simpl in H; [|discriminate].
      injection H as <-. constructor; [assumption|]. now apply IH.
    + inversion H as [|? y ? ys Hxy Hrest]; subst.
      rewrite Hxy; simpl. apply IH in Hrest. now rewrite Hrest.
Qed.

Lemma mapE_Ok_length {A B} (f : A -> Exc B) (l : list A) (l' : list B) :
  mapE f l = Ok l' -> length l' = length l.
Proof.
  intros H. apply mapE_Ok_Forall2 in H.
  symmetry. eapply Forall2_length; eassumption.
Qed.

Lemma mapE_all_Ok {A B} (f : A -> Exc B) (l : list A) :
  Forall (fun x => exists y, f x = Ok y) l -> exists l', mapE f l = Ok l'.
Proof.
  induction 1 as [|x l [y Hy] _ [l' IH]]; simpl.
  - now exists [].
  - rewrite Hy, IH; simpl. now eexists.
Qed.

Lemma mapE_Raise_In {A B} (f : A -> Exc B) (l : list A) (e : Exn) :
  mapE f l = Raise e -> exists x, In x l /\ f x = Raise e.
Proof.
  induction l as [|x l IH]; simpl; [discriminate|].
  destruct (f x) as [y|e'] eqn:Ex; simpl.
  - destruct (mapE f l) as [ys|e''] eqn:El; simpl; [discriminate|].
    intros H; injection H as ->.
    destruct (IH eq_refl) as (x0 & Hin & Hx0). exists x0; auto.
  - intros H; injection H as ->. exists x; auto.
Qed.

Lemma mapE_some_Raise {A B} (f : A -> Exc B) (l : list A) (x : A) (e : Exn) :
  In x l -> f x = Raise e -> exists e', mapE f l = Raise e'.
Proof.
  induction l as [|y l IH]; simpl; [contradiction|].
  intros [->|Hin] Hx.
  - rewrite Hx; simpl. now eexists.
  - destruct (f y); simpl; [|now eexists].
    destruct (IH Hin Hx) as [e' ->]; simpl. now eexists.
Qed.

(** ** Choice tapes order, they neither lose nor invent *)

Lemma pick_Permutation {A} (n : nat) (l : list A) x r :
  pick n l = Some (x, r) -> Permutation (x :: r) l.
Proof.
  revert n x r; induction l as [|y l IH]; simpl; intros n x r H;
    [discriminate|].
  destruct n as [|n]; simpl in H.
  - injection H as <- <-. apply Permutation_refl.
  - destruct (pick n l) as [[z r']|] eqn:E; [|discriminate].
    injection H as <- <-.
    rewrite perm_swap. constructor. now apply IH with n.
Qed.

Lemma pick_Some {A} (n : nat) (l : list A) :
  (n < length l)%nat -> exists x r, pick n l = Some (x, r).
Proof.
  revert n; induction l as [|y l IH]; simpl; intros n H; [lia|].
  destruct n as [|n]; [now eauto|].
  destruct (IH n ltac:(lia)) as (x & r & ->). eauto.
Qed.

Lemma draw_order_Permutation {A} (fuel : nat) (tape : list nat) (l : list A) :
  length l = fuel -> Permutation (fst (draw_order fuel tape l)) l.
Proof.
  revert tape l; induction fuel as [|fuel IH]; simpl; intros tape l Hlen.
  - destruct l; [constructor|discriminate].
  - destruct (pick_Some (Nat.modulo (hd O tape) (length l)) l)
      as (x & r & Hp).
    { apply Nat.mod_upper_bound. lia. }
    rewrite Hp.
    pose proof (pick_Permutation _ _ _ _ Hp) as Hperm.
    assert (Hr : length r = fuel).
    { apply Permutation_length in Hperm. simpl in Hperm. lia. }
    specialize (IH (tl tape) r Hr).
    destruct (draw_order fuel (tl tape) r) as [out tape']; simpl in *.
    rewrite <- Hperm. now constructor.
Qed.

Lemma shuffle_Permutation {A} (tape : list nat) (l : list A) :
  Permutation (fst (shuffle tape l)) l.
Proof. apply draw_order_Permutation. reflexivity. Qed.

(** ** ray.get returns results in list order under every schedule *)

Lemma store_lookup_notin {A} (s : list (nat * A)) (i : nat) :
  ~ In i (map fst s) -> store_lookup s i = None.
Proof.
  induction s as [|[r v] s IH]; simpl; intros H; [reflexivity|].
  destruct (Nat.eqb_spec r i); [tauto|]. apply IH. tauto.
Qed.

Lemma store_lookup_Permutation {A} (s s' : list (nat * A)) (i : nat) :
  Permutation s s' -> NoDup (map fst s) ->
  store_lookup s i = store_lookup s' i.
Proof.
  induction 1 as [| [r v] s s' Hp IH | [r1 v1] [r2 v2] s | s s' s'' H1 IH1 H2 IH2];
    simpl; intros Hnd.
  - reflexivity.
  - inversion Hnd; subst. now rewrite IH.
  - inversion Hnd as [|? ? Hnotin _]; subst. simpl in Hnotin.
    destruct (Nat.eqb_spec r2 i), (Nat.eqb_spec r1 i); subst;
      try reflexivity.
    exfalso; apply Hnotin; now left.
  - rewrite IH1 by assumption. apply IH2.
    eapply Permutation_NoDup; [|eassumption].
    now apply Permutation_map.
Qed.

Lemma store_lookup_combine {A} (l : list A) (a i : nat) :
  store_lookup (combine (seq a (length l)) l) (a + i) = nth_error l i.
Proof.
  revert a i; induction l as [|x l IH]; simpl; intros a i.
  - now destruct i.
  - destruct (Nat.eqb_spec a (a + i)) as [E|E].
    + assert (i = O) by lia. now subst.
    + destruct i as [|i]; [lia|]. simpl.
      replace (a + S i)%nat with (S a + i)%nat by lia. apply IH.
Qed.

Lemma map_fst_combine_seq {A} (l : list A) (a : nat) :
  map fst (combine (seq a (length l)) l) = seq a (length l).
Proof.
  revert a; induction l as [|x l IH]; simpl; intros a; [reflexivity|].
  now rewrite IH.
Qed.

Lemma run_tasks_lookup {A} (sched : list nat) (tasks : list (Exc A)) (i : nat) :
  store_lookup (run_tasks sched tasks) i = nth_error tasks i.
Proof.
  unfold run_tasks.
  rewrite (store_lookup_Permutation _ (combine (seq 0 (length tasks)) tasks)).
  - apply (store_lookup_combine tasks 0 i).
  - apply shuffle_Permutation.
  - eapply Permutation_NoDup.
    + apply Permutation_map, Permutation_sym, shuffle_Permutation.
    + rewrite map_fst_combine_seq. apply seq_NoDup.
Qed.

Lemma mapE_nth_error_seq {A} (g : nat -> Exc A) (l : list (Exc A)) (a : nat) :
  (forall i x, nth_error l i = Some x -> g (a + i)%nat = x) ->
  mapE g (seq a (length l)) = sequenceE l.
Proof.
  revert a; induction l as [|x l IH]; simpl; intros a H; [reflexivity|].
  assert (Hx : g a = x).
  { rewrite <- (H O x eq_refl). f_equal. lia. }
  rewrite Hx.
  unfold sequenceE in IH. rewrite (IH (S a)); [reflexivity|].
  intros i y Hi. replace (S a + i)%nat with (a + S i)%nat by lia.
  now apply H.
Qed.

Lemma ray_get_one_list_order {A} (sched : list nat) (tasks : list (Exc A)) :
  mapE (ray_get_one (run_tasks sched tasks)) (seq 0 (length tasks))
  = sequenceE tasks.
Proof.
  apply (mapE_nth_error_seq _ tasks 0).
  intros i x Hi. unfold ray_get_one. simpl.
  now rewrite run_tasks_lookup, Hi.
Qed.

Lemma first_error_In {A} (results : list (Exc A)) (e : Exn) :
  first_error results = Some e -> In (Raise e) results.
Proof.
  induction results as [|[a|e'] rest IH]; simpl; intros H.
  - discriminate.
  - right. now apply IH.
  - left. now injection H as ->.
Qed.

Lemma first_error_None {A} (results : list (Exc A)) :
  first_error results = None <-> forall e, ~ In (Raise e) results.
Proof.
  induction results as [|[a|e'] rest IH]; simpl.
  - split; [intros _ e []|reflexivity].
  - rewrite IH. split.
    + intros H e [Hd|Hin]; [discriminate|]. now apply (H e).
    + intros H e Hin. apply (H e). now right.
  - split; [discriminate|]. intros H. exfalso. apply (H e'). now left.
Qed.

Lemma sequenceE_Ok_no_Raise {A} (tasks : list (Exc A)) :
  (exists vs, sequenceE tasks = Ok vs) <-> forall e, ~ In (Raise e) tasks.
Proof.
  unfold sequenceE. induction tasks as [|[a|e'] rest IH]; simpl.
  - split; [intros _ e []|intros _; now eexists].
  - split.
    + intros [vs H] e [Hd|Hin]; [discriminate|].
      destruct (mapE (fun r => r) rest) as [vs'|]; [|discriminate].
      apply (proj1 IH (ex_intro _ vs' eq_refl) e Hin).
    + intros H. destruct (proj2 IH) as [vs' ->].
      { intros e Hin. apply (H e). now right. }
      simpl. now eexists.
  - split.
    + intros [vs H]. discriminate.
    + intros H. exfalso. apply (H e'). now left.
Qed.

Lemma map_snd_combine_seq {A} (l : list A) (a : nat) :
  map snd (combine (seq a (length l)) l) = l.
Proof.
  revert a; induction l as [|x l IH]; simpl; intros a; [reflexivity|].
  now rewrite IH.
Qed.

Lemma run_tasks_results {A} (sched : list nat) (tasks : list (Exc A)) :
  Permutation (map snd (run_tasks sched tasks)) tasks.
Proof.
  unfold run_tasks.
  transitivity (map snd (combine (seq 0 (length tasks)) tasks)).
  - apply Permutation_map, shuffle_Permutation.
  - now rewrite map_snd_combine_seq.
Qed.

(** The wait returns exactly when no task failed, and then with the
    results in list order whatever the schedule; when it raises, it raises
    the exception of one of the tasks. *)
Lemma ray_wait_Ok {A} (sched : list nat) (tasks : list (Exc A)) (vs : list A) :
  ray_wait sched tasks = Ok vs <-> sequenceE tasks = Ok vs.
Proof.
  unfold ray_wait.
  destruct (first_error (map snd (run_tasks sched tasks))) as [e|] eqn:Ef.
  - split; [discriminate|]. intros H. exfalso.
    apply first_error_In in Ef.
    apply (Permutation_in _ (run_tasks_results sched tasks)) in Ef.
    exact (proj1 (sequenceE_Ok_no_Raise tasks) (ex_intro _ vs H) e Ef).
  - now rewrite ray_get_one_list_order.
Qed.

Lemma ray_wait_Raise {A} (sched : list nat) (tasks : list (Exc A)) (e : Exn) :
  ray_wait sched tasks = Raise e -> In (Raise e) tasks.
Proof.
  unfold ray_wait.
  destruct (first_error (map snd (run_tasks sched tasks))) as [e'|] eqn:Ef.
  - intros H. injection H as <-. apply first_error_In in Ef.
    exact (Permutation_in _ (run_tasks_results sched tasks) Ef).
  - rewrite ray_get_one_list_order. intros H.
    exfalso. pose proof (proj1 (first_error_None _) Ef) as Hnone.
    unfold sequenceE in H. apply mapE_Raise_In in H as (x & Hin & ->).
    apply (Hnone e).
    exact (Permutation_in _ (Permutation_sym (run_tasks_results sched tasks))
             Hin).
Qed.

Lemma ray_wait_failed {A} (sched : list nat) (tasks : list (Exc A)) (e : Exn) :
  In (Raise e) tasks ->
  exists e', ray_wait sched tasks = Raise e' /\ In (Raise e') tasks.
Proof.
  intros Hin. destruct (ray_wait sched tasks) as [vs|e'] eqn:Ew.
  - exfalso. apply ray_wait_Ok in Ew.
    exact (proj1 (sequenceE_Ok_no_Raise tasks) (ex_intro _ vs Ew) e Hin).
  - exists e'. split; [reflexivity|]. now apply ray_wait_Raise in Ew.
Qed.

Lemma ray_wait_all_Ok {A} (sched : list nat) (vs : list A) :
  ray_wait sched (map Ok vs) = Ok vs.
Proof.
  apply ray_wait_Ok. unfold sequenceE.
  induction vs as [|v vs IH]; simpl; [reflexivity|]. now rewrite IH.
Qed.

Lemma ray_wait_nil {A} (sched : list nat) : @ray_wait A sched [] = Ok [].
Proof. exact (ray_wait_all_Ok sched []). Qed.

Lemma ray_get_eq {A} (sched : list nat) (tasks : list (Exc A)) :
  ray_get sched tasks = ([RayGet (length tasks)], ray_wait sched tasks).
Proof.
  unfold ray_get, bind, emit, liftE; simpl.
  now destruct (ray_wait sched tasks).
Qed.

(** ** The split *)

Lemma iloc_app {A} (a : list A) (i1 i2 : list nat) :
  iloc a (i1 ++ i2) = iloc a i1 ++ iloc a i2.
Proof. unfold iloc. apply flat_map_app. Qed.

Lemma iloc_length {A} (a : list A) (idx : list nat) :
  Forall (fun i => (i < length a)%nat) idx ->
  length (iloc a idx) = length idx.
Proof.
  induction 1 as [|i idx Hi _ IH]; simpl; [reflexivity|].
  rewrite length_app, IH.
  destruct (nth_error a i) eqn:E; [reflexivity|].
  apply nth_error_None in E. lia.
Qed.

Lemma iloc_seq_from {A} (pre l : list A) :
  iloc (pre ++ l) (seq (length pre) (length l)) = l.
Proof.
  revert pre; induction l as [|x l IH]; simpl; intros pre; [reflexivity|].
  rewrite nth_error_app2, Nat.sub_diag by lia. simpl.
  f_equal.
  specialize (IH (pre ++ [x])).
  rewrite <- app_assoc, length_app in IH. simpl in IH.
  now replace (length pre + 1)%nat with (S (length pre)) in IH by lia.
Qed.

Lemma iloc_seq {A} (l : list A) : iloc l (seq 0 (length l)) = l.
Proof. apply (iloc_seq_from [] l). Qed.

Lemma Forall_firstn_skipn {A} (P : A -> Prop) (n : nat) (l : list A) :
  Forall P l -> Forall P (firstn n l) /\ Forall P (skipn n l).
Proof.
  intros H. rewrite <- (firstn_skipn n l) in H. now apply Forall_app in H.
Qed.

Lemma ceil_quarter_lt (n : nat) : (2 <= n)%nat -> (Nat.div (n + 3) 4 < n)%nat.
Proof.
  intros H.
  destruct (Nat.eq_dec n 2) as [->|]; [simpl; lia|].
  destruct (Nat.eq_dec n 3) as [->|]; [simpl; lia|].
  apply Nat.Div0.div_lt_upper_bound. lia.
Qed.

Lemma train_test_split_spec {A} (g : list nat) (df : list A) :
  (2 <= length df)%nat ->
  exists train test g',
    train_test_split g df = Ok (train, test, g') /\
    length test = Nat.div (length df + 3) 4 /\
    length train = (length df - Nat.div (length df + 3) 4)%nat /\
    Permutation (test ++ train) df.
Proof.
  intros Hn. unfold train_test_split.
  pose proof (ceil_quarter_lt _ Hn) as Hlt.
  destruct (Nat.eqb_spec (length df - Nat.div (length df + 3) 4) 0) as [E|_];
    [lia|].
  pose proof (shuffle_Permutation g (seq 0 (length df))) as Hperm.
  unfold np_permutation.
  destruct (shuffle g (seq 0 (length df))) as [perm g'] eqn:Es.
  simpl in Hperm.
  assert (Hlen : length perm = length df).
  { apply Permutation_length in Hperm. now rewrite length_seq in Hperm. }
  assert (Hvalid : Forall (fun i => (i < length df)%nat) perm).
  { apply Forall_forall. intros i Hi.
    apply (Permutation_in _ Hperm), in_seq in Hi. lia. }
  do 3 eexists. split; [reflexivity|].
  assert (Hall : firstn (length df - Nat.div (length df + 3) 4)
                        (skipn (Nat.div (length df + 3) 4) perm)
                 = skipn (Nat.div (length df + 3) 4) perm).
  { apply firstn_all2. rewrite length_skipn. lia. }
  rewrite Hall.
  split; [|split].
  - rewrite iloc_length.
    + rewrite length_firstn. lia.
    + now apply Forall_firstn_skipn.
  - rewrite iloc_length.
    + rewrite length_skipn. lia.
    + now apply Forall_firstn_skipn.
  - rewrite <- iloc_app, firstn_skipn.
    rewrite <- (iloc_seq df) at 2.
    unfold iloc. now apply Permutation_flat_map.
Qed.

(** ** The sort *)

Lemma Qltb_true (x y : Q) : Qltb x y = true <-> (x < y)%Q.
Proof.
  unfold Qltb. rewrite negb_true_iff.
  split; intros H.
  - apply Qnot_le_lt. intros Hle. apply Qle_bool_iff in Hle. congruence.
  - destruct (Qle_bool y x) eqn:E; [|reflexivity].
    apply Qle_bool_iff in E. exfalso. now apply (Qlt_not_le x y).
Qed.

Lemma Qltb_false (x y : Q) : Qltb x y = false <-> (y <= x)%Q.
Proof.
  unfold Qltb. rewrite negb_false_iff. apply Qle_bool_iff.
Qed.

Section Sort.

Context {A : Type} (key : A -> Q).

Lemma insert_by_Permutation (x : A) (l : list A) :
  Permutation (insert_by key x l) (x :: l).
Proof.
  induction l as [|y l IH]; simpl; [reflexivity|].
  destruct (Qltb (key y) (key x)); [|reflexivity].
  rewrite IH. apply perm_swap.
Qed.

Lemma list_sort_Permutation (l : list A) : Permutation (list_sort key l) l.
Proof.
  induction l as [|x l IH]; simpl; [constructor|].
  rewrite insert_by_Permutation. now constructor.
Qed.

Lemma list_sort_length (l : list A) : length (list_sort key l) = length l.
Proof. apply Permutation_length, list_sort_Permutation. Qed.

Lemma insert_by_HdRel (a x : A) (l : list A) :
  (key_le key) a x -> HdRel (key_le key) a l -> HdRel (key_le key) a (insert_by key x l).
Proof.
  intros Hax Hl. destruct l as [|y l]; simpl; [now constructor|].
  destruct (Qltb (key y) (key x)); constructor; [|assumption].
  now inversion Hl.
Qed.

Lemma insert_by_Sorted (x : A) (l : list A) :
  Sorted (key_le key) l -> Sorted (key_le key) (insert_by key x l).
Proof.
  induction 1 as [|y l Hs IH Hhd]; simpl; [repeat constructor|].
  destruct (Qltb (key y) (key x)) eqn:E.
  - constructor; [assumption|].
    apply insert_by_HdRel; [|assumption].
    apply Qltb_true in E. now apply Qlt_le_weak.
  - apply Qltb_false in E.
    constructor; [now constructor|]. now constructor.
Qed.

Lemma list_sort_Sorted (l : list A) : Sorted (key_le key) (list_sort key l).
Proof.
  induction l as [|x l IH]; simpl; [constructor|].
  now apply insert_by_Sorted.
Qed.

(** Stability: the elements of any one key keep their order. *)
Lemma insert_by_stable (s : Q) (x : A) (l : list A) :
  filter (fun r => Qeq_bool (key r) s) (insert_by key x l)
  = filter (fun r => Qeq_bool (key r) s) (x :: l).
Proof.
  induction l as [|y l IH]; [reflexivity|].
  cbn [insert_by].
  destruct (Qltb (key y) (key x)) eqn:E; [|reflexivity].
  cbn [filter] in *. rewrite IH.
  destruct (Qeq_bool (key x) s) eqn:Ex; [|reflexivity].
  destruct (Qeq_bool (key y) s) eqn:Ey; [|reflexivity].
  exfalso.
  apply Qltb_true in E. apply Qeq_bool_iff in Ex, Ey.
  rewrite Ex, Ey in E. now apply (Qlt_irrefl s).
Qed.

Lemma list_sort_stable (s : Q) (l : list A) :
  filter (fun r => Qeq_bool (key r) s) (list_sort key l)
  = filter (fun r => Qeq_bool (key r) s) l.
Proof.
  induction l as [|x l IH]; [reflexivity|].
  cbn [list_sort fold_right]. rewrite insert_by_stable.
  cbn [filter]. fold (list_sort key l). now rewrite IH.
Qed.

End Sort.

Lemma filter_split {A} (p : A -> bool) (l a b : list A) (x : A) :
  filter p l = a ++ x :: b ->
  exists a' b', l = a' ++ x :: b' /\ filter p a' = a /\ filter p b' = b.
Proof.
  revert a; induction l as [|h l IH]; simpl; intros a H.
  - destruct a; discriminate.
  - destruct (p h) eqn:Eh.
    + destruct a as [|h' a]; simpl in H.
      * injection H as -> Hb. exists [], l. auto.
      * injection H as <- H.
        destruct (IH _ H) as (a' & b' & -> & Ha & Hb).
        exists (h :: a'), b'. simpl. rewrite Eh, Ha. auto.
    + destruct (IH _ H) as (a' & b' & -> & Ha & Hb).
      exists (h :: a'), b'. simpl. rewrite Eh. auto.
Qed.

(** In a list sorted by [list_sort], of two elements with equal keys the
    one that came first comes first. *)
Lemma list_sort_keeps_order {A} (key : A -> Q) (pre mid post : list A)
  (x y : A) :
  (key x == key y)%Q ->
  exists pre' mid' post',
    list_sort key (pre ++ x :: mid ++ y :: post)
    = pre' ++ x :: mid' ++ y :: post'.
Proof.
  intros Heq.
  pose proof (list_sort_stable key (key x) (pre ++ x :: mid ++ y :: post))
    as Hst.
  rewrite filter_app in Hst. cbn [filter] in Hst.
  rewrite filter_app in Hst. cbn [filter] in Hst.
  assert (Hx : Qeq_bool (key x) (key x) = true)
    by (apply Qeq_bool_iff; reflexivity).
  assert (Hy : Qeq_bool (key y) (key x) = true)
    by (apply Qeq_bool_iff; now symmetry).
  rewrite Hx, Hy in Hst.
  destruct (filter_split _ _ _ _ _ Hst) as (pre' & rest & Hl & _ & Hrest).
  destruct (filter_split _ _ _ _ _ Hrest) as (mid' & post' & -> & _ & _).
  now exists pre', mid', post'.
Qed.

(** ** What train_and_evaluate does *)

Example sample_batch_is_transformed :
  bindE (read_data Sample.world "may.parquet" (Some 1))
        (transform_batch Sample.world)
  = Ok Sample.batch.
Proof. reflexivity. Qed.

Lemma mapM_remote {A B} (fn : A -> RemoteFn) (body : A -> B) (l : list A) :
  mapM (fun x => remote (fn x) (body x)) l
  = (map (fun x => Remote (fn x)) l, Ok (map body l)).
Proof.
  induction l as [|x l IH]; [reflexivity|].
  cbn [mapM map]. rewrite IH.
  unfold remote, bind, emit, ret. simpl. now rewrite app_nil_r.
Qed.

Lemma train_and_evaluate_small (w : World) (wk : Worker) (df : DataFrame)
  (models : list BaseEstimator) (i : Key) :
  (length df < min_rows_per_partition)%nat ->
  train_and_evaluate w wk df models i
  = (printed_time w (MsgTooSmall i), Ok None).
Proof.
  intros H. unfold train_and_evaluate.
  apply Nat.ltb_lt in H. rewrite H.
  unfold print_time, printed_time. now destruct (PRINT_TIMES w).
Qed.

Lemma train_and_evaluate_large (w : World) (wk : Worker) (df : DataFrame)
  (models : list BaseEstimator) (i : Key) train test g' :
  (min_rows_per_partition <= length df)%nat ->
  train_test_split (rng wk) df = Ok (train, test, g') ->
  train_and_evaluate w wk df models i
  = match ray_wait (units_sched wk)
            (map (fit_and_score_sklearn train test) models) with
    | Ok raw =>
        ([RayPut; RayPut]
           ++ map (fun m => Remote (FitAndScoreSklearn (repr m))) models
           ++ [RayGet (length models)]
           ++ printed_time w (MsgTrainingTime i),
         Ok (Some (list_sort snd raw)))
    | Raise e =>
        ([RayPut; RayPut]
           ++ map (fun m => Remote (FitAndScoreSklearn (repr m))) models
           ++ [RayGet (length models)],
         Raise e)
    end.
Proof.
  intros Hn Hsplit. unfold train_and_evaluate.
  apply Nat.ltb_ge in Hn. rewrite Hn, Hsplit.
  cbn [liftE bind ray_put emit ret app].
  rewrite (mapM_remote (fun m => FitAndScoreSklearn (repr m))
             (fit_and_score_sklearn train test) models).
  cbn [bind]. rewrite ray_get_eq, length_map.
  destruct (ray_wait (units_sched wk)
              (map (fit_and_score_sklearn train test) models))
    as [raw|e]; cbn.
  - unfold print_time, printed_time.
    destruct (PRINT_TIMES w); cbn; rewrite ?app_nil_r; reflexivity.
  - rewrite ?app_nil_r. reflexivity.
Qed.

(** ** The evaluation group *)

Lemma filter_is_remote_map {A} (fn : A -> RemoteFn) (l : list A) :
  filter is_remote (map (fun x => Remote (fn x)) l)
  = map (fun x => Remote (fn x)) l.
Proof.
  induction l as [|x l IH]; simpl; [reflexivity|]. now rewrite IH.
Qed.

Lemma filter_is_remote_printed (w : World) (msg : Msg) :
  filter is_remote (printed_time w msg) = [].
Proof. unfold printed_time. now destruct (PRINT_TIMES w). Qed.

Lemma key_le_trans {A} (key : A -> Q) (a b c : A) :
  key_le key a b -> key_le key b c -> key_le key a c.
Proof. unfold key_le. apply Qle_trans. Qed.

Lemma list_sort_StronglySorted {A} (key : A -> Q) (l : list A) :
  StronglySorted (key_le key) (list_sort key l).
Proof.
  apply Sorted_StronglySorted.
  - intros a b c. apply key_le_trans.
  - apply list_sort_Sorted.
Qed.

(** C5.  A batch with fewer rows than [min_rows_per_partition] (the 4 of
    the source) makes the evaluation group return the empty marker [None]
    as an ordinary result, not an exception, and submit no trainer unit:
    its trace holds no remote call, only the line [print_time] may
    print. *)
Theorem small_batch_yields_empty_marker (w : World) (wk : Worker)
  (df : DataFrame) (models : list BaseEstimator) (i : Key) :
  (length df < min_rows_per_partition)%nat ->
  outcome (train_and_evaluate w wk df models i) = Ok None /\
  filter is_remote (trace (train_and_evaluate w wk df models i)) = [] /\
  trace (train_and_evaluate w wk df models i)
  = printed_time w (MsgTooSmall i).
Proof.
  intros H. rewrite train_and_evaluate_small by assumption.
  unfold outcome, trace. simpl.
  repeat split. apply filter_is_remote_printed.
Qed.

Lemma small_batch_yields_empty_marker_witness :
  (length (firstn 3 Sample.batch) < min_rows_per_partition)%nat /\
  outcome (train_and_evaluate Sample.world_verbose Sample.worker
             (firstn 3 Sample.batch) Sample.models (Some 1)) = Ok None /\
  trace (train_and_evaluate Sample.world_verbose Sample.worker
           (firstn 3 Sample.batch) Sample.models (Some 1))
  = [Stdout (MsgTooSmall (Some 1))].
Proof.
  assert (H : (length (firstn 3 Sample.batch) < min_rows_per_partition)%nat)
    by (unfold min_rows_per_partition; simpl; lia).
  split; [exact H|].
  destruct (small_batch_yields_empty_marker Sample.world_verbose
              Sample.worker (firstn 3 Sample.batch) Sample.models (Some 1) H)
    as (Hout & _ & Htr).
  split; [exact Hout | exact Htr].
Defined.

(** C6.  Whenever the evaluation group returns a ranking, the ranking is
    the list of the routines' results, taken in the order the routines were
    declared, sorted ascending by error score by a stable sort: it is
    sorted, it holds the same results, the results of any one score keep
    their declaration order, and so of two results with equal score the one
    declared first comes first. *)
Theorem ranking_sorted_and_stable (w : World) (wk : Worker)
  (df : DataFrame) (models : list BaseEstimator) (i : Key)
  (ranked : list TrainerResult) :
  outcome (train_and_evaluate w wk df models i) = Ok (Some ranked) ->
  exists train test g' raw,
    train_test_split (rng wk) df = Ok (train, test, g') /\
    Forall2 (fun m r => fit_and_score_sklearn train test m = Ok r)
            models raw /\
    StronglySorted (key_le snd) ranked /\
    Permutation ranked raw /\
    (forall s, filter (fun r => Qeq_bool (snd r) s) ranked
               = filter (fun r => Qeq_bool (snd r) s) raw) /\
    (forall pre mid post r1 r2,
        raw = pre ++ r1 :: mid ++ r2 :: post ->
        (snd r1 == snd r2)%Q ->
        exists pre' mid' post', ranked = pre' ++ r1 :: mid' ++ r2 :: post').
Proof.
  intros Hout.
  destruct (Nat.lt_ge_cases (length df) min_rows_per_partition) as [Hs|Hl].
  - rewrite train_and_evaluate_small in Hout by assumption. discriminate.
  - destruct (train_test_split_spec (rng wk) df)
      as (train & test & g' & Hsplit & _).
    { unfold min_rows_per_partition in Hl. lia. }
    rewrite (train_and_evaluate_large w wk df models i train test g' Hl Hsplit)
      in Hout.
    destruct (ray_wait (units_sched wk)
                (map (fit_and_score_sklearn train test) models))
      as [raw|e] eqn:Eseq; [|discriminate].
    apply ray_wait_Ok in Eseq.
    unfold outcome in Hout. simpl in Hout. injection Hout as <-.
    exists train, test, g', raw.
    split; [assumption|]. split.
    { unfold sequenceE in Eseq. rewrite mapE_map in Eseq.
      now apply mapE_Ok_Forall2 in Eseq. }
    split; [apply list_sort_StronglySorted|].
    split; [apply list_sort_Permutation|].
    split; [intros s; apply list_sort_stable|].
    intros pre mid post r1 r2 -> Heq.
    now apply list_sort_keeps_order.
Qed.

Lemma ranking_sorted_and_stable_witness :
  exists ranked,
    outcome (train_and_evaluate Sample.world Sample.worker Sample.batch
               Sample.models (Some 1)) = Ok (Some ranked) /\
    map (fun r => (repr (fst r), snd r)) ranked
    = [("C", 1200%Q); ("A", 1800%Q); ("B", 1800%Q)] /\
    StronglySorted (key_le snd) ranked.
Proof.
  eexists. split; [vm_compute; reflexivity|]. split; [reflexivity|].
  destruct (ranking_sorted_and_stable Sample.world Sample.worker Sample.batch
              Sample.models (Some 1) _ eq_refl)
    as (_ & _ & _ & _ & _ & _ & Hsorted & _).
  exact Hsorted.
Defined.

(** C1, as the code has it.  On a batch with at least
    [min_rows_per_partition] rows every routine is submitted once, in
    declaration order, whatever the others do.  When no routine fails the
    group returns a ranking with one entry per routine.  When a routine
    fails the group itself fails, with the exception of one of the failed
    routines, and returns no ranking; on such a batch it never returns the
    empty marker. *)
Theorem failed_routine_fails_the_group (w : World) (wk : Worker)
  (df : DataFrame) (models : list BaseEstimator) (i : Key) :
  (min_rows_per_partition <= length df)%nat ->
  exists train test g',
    train_test_split (rng wk) df = Ok (train, test, g') /\
    let units := map (fit_and_score_sklearn train test) models in
    let group := train_and_evaluate w wk df models i in
    filter is_remote (trace group)
    = map (fun m => Remote (FitAndScoreSklearn (repr m))) models /\
    (Forall (fun u => exists r, u = Ok r) units ->
     exists ranked,
       outcome group = Ok (Some ranked) /\ length ranked = length models) /\
    (forall e, In (Raise e) units ->
               exists e', In (Raise e') units /\ outcome group = Raise e') /\
    outcome group <> Ok None.
Proof.
  intros Hl.
  destruct (train_test_split_spec (rng wk) df)
    as (train & test & g' & Hsplit & _).
  { unfold min_rows_per_partition in Hl. lia. }
  exists train, test, g'. split; [assumption|].
  cbv zeta.
  rewrite (train_and_evaluate_large w wk df models i train test g' Hl Hsplit).
  destruct (ray_wait (units_sched wk)
              (map (fit_and_score_sklearn train test) models))
    as [raw|e0] eqn:Eseq; unfold outcome, trace; simpl.
  - apply ray_wait_Ok in Eseq. split.
    { rewrite filter_app, filter_is_remote_map. simpl.
      now rewrite filter_is_remote_printed, app_nil_r. }
    split.
    { intros _. exists (list_sort snd raw). split; [reflexivity|].
      rewrite list_sort_length.
      apply mapE_Ok_length in Eseq. now rewrite length_map in Eseq. }
    split; [|discriminate].
    intros e Hin. exfalso.
    exact (proj1 (sequenceE_Ok_no_Raise _) (ex_intro _ raw Eseq) e Hin).
  - apply ray_wait_Raise in Eseq. split.
    { rewrite filter_app, filter_is_remote_map. simpl.
      now rewrite app_nil_r. }
    split.
    { intros Hall. exfalso.
      rewrite Forall_forall in Hall.
      destruct (Hall _ Eseq) as [r Hr]. discriminate. }
    split; [|discriminate].
    intros _ _. now exists e0.
Qed.

Lemma failed_routine_fails_the_group_witness :
  (min_rows_per_partition <= length Sample.batch)%nat /\
  filter is_remote
    (trace (train_and_evaluate Sample.world Sample.worker Sample.batch
              [Sample.constant "A" 600%Q; Sample.broken "B";
               Sample.constant "C" 1200%Q] (Some 1)))
  = [Remote (FitAndScoreSklearn "A"); Remote (FitAndScoreSklearn "B");
     Remote (FitAndScoreSklearn "C")].
Proof.
  assert (H : (min_rows_per_partition <= length Sample.batch)%nat)
    by (unfold min_rows_per_partition; simpl; lia).
  split; [exact H|].
  destruct (failed_routine_fails_the_group Sample.world Sample.worker
              Sample.batch
              [Sample.constant "A" 600%Q; Sample.broken "B";
               Sample.constant "C" 1200%Q] (Some 1) H)
    as (train & test & g' & _ & Hsub & _).
  exact Hsub.
Defined.

(** C1 as stated fails: with two routines of which the second fails, the
    group does not return the one surviving result, it raises; and when the
    only routine fails it raises too instead of returning the empty
    marker. *)
Lemma one_failure_of_two_raises :
  let group := outcome (train_and_evaluate Sample.world Sample.worker
                          Sample.batch
                          [Sample.constant "A" 600%Q; Sample.broken "B"]
                          (Some 1)) in
  let all_fail := outcome (train_and_evaluate Sample.world Sample.worker
                             Sample.batch [Sample.broken "B"] (Some 1)) in
  group = Raise (EstimatorError "B") /\
  ~ (exists ranked, group = Ok (Some ranked) /\ length ranked = (2 - 1)%nat) /\
  all_fail = Raise (EstimatorError "B") /\
  all_fail <> Ok None.
Proof.
  cbv zeta. split; [reflexivity|]. split.
  - intros (ranked & H & _). vm_compute in H. discriminate.
  - split; [reflexivity|]. vm_compute. discriminate.
Qed.




(** ** The batch transformer *)



Lemma assign_columns_spec (w : World) (df : Table)
  (pickups dropoffs : list (option Z)) :
  Forall2 (fun c v => to_datetime_cell w c = Ok v) (map pickup_at df) pickups ->
  Forall2 (fun c v => to_datetime_cell w c = Ok v) (map dropoff_at df) dropoffs ->
  Forall2 (transformed w) df (assign_columns df (combine pickups dropoffs)).
Proof.
  revert pickups dropoffs; induction df as [|r df IH]; simpl;
    intros pickups dropoffs Hp Hd.
  - constructor.
  - inversion Hp as [|? p ? ps Hp1 Hps]; subst.
    inversion Hd as [|? d ? ds Hd1 Hds]; subst.
    simpl. constructor; [|now apply IH].
    unfold transformed, transformed_row. simpl. auto.
Qed.

Lemma transform_batch_Ok (w : World) (df : Table) (out : DataFrame) :
  transform_batch w df = Ok out -> Forall2 (transformed w) df out.
Proof.
  unfold transform_batch, to_datetime.
  destruct (mapE (to_datetime_cell w) (map pickup_at df)) as [ps|e] eqn:Ep;
    simpl; [|discriminate].
  destruct (mapE (to_datetime_cell w) (map dropoff_at df)) as [ds|e] eqn:Ed;
    simpl; [|discriminate].
  intros H. injection H as <-.
  apply assign_columns_spec; now apply mapE_Ok_Forall2.
Qed.




(** ** The partition pipeline *)

Lemma task_direct_eq (w : World) (wk : Worker) (file file_name : string)
  (i : Key) (models : list BaseEstimator) (load : string -> Key -> Exc Table) :
  task w wk (PathData file) file_name i models (Some load)
  = match load file i with
    | Raise e => ([], Raise e)
    | Ok t =>
        match transform_batch w t with
        | Raise e => (printed_time w (MsgLoadingTime i), Raise e)
        | Ok df =>
            let group := train_and_evaluate w wk df models i in
            (printed_time w (MsgLoadingTime i)
               ++ printed_time w (MsgTransformTime i) ++ trace group,
             match outcome group with
             | Ok ranked => Ok (file_name, i, ranked)
             | Raise e => Raise e
             end)
        end
    end.
Proof.
  unfold task, liftE, print_time, printed_time, trace, outcome.
  destruct (PRINT_TIMES w); destruct (load file i) as [t|e]; cbn;
    try reflexivity;
    destruct (transform_batch w t) as [df|e]; cbn; try reflexivity;
    destruct (train_and_evaluate w wk df models i) as [tr [r|e]]; cbn;
    rewrite ?app_nil_r; reflexivity.
Qed.

Lemma task_staged_eq (w : World) (wk : Worker) (t : Table)
  (file_name : string) (i : Key) (models : list BaseEstimator) :
  task w wk (FrameData t) file_name i models None
  = match transform_batch w t with
    | Raise e => ([], Raise e)
    | Ok df =>
        let group := train_and_evaluate w wk df models i in
        (printed_time w (MsgTransformTime i) ++ trace group,
         match outcome group with
         | Ok ranked => Ok (file_name, i, ranked)
         | Raise e => Raise e
         end)
    end.
Proof.
  unfold task, liftE, print_time, printed_time, trace, outcome.
  destruct (PRINT_TIMES w); cbn;
    destruct (transform_batch w t) as [df|e]; cbn; try reflexivity;
    destruct (train_and_evaluate w wk df models i) as [tr [r|e]]; cbn;
    rewrite ?app_nil_r; reflexivity.
Qed.

Lemma task_direct_partition (w : World) (wk : Worker) (file file_name : string)
  (i : Key) (models : list BaseEstimator) (load : string -> Key -> Exc Table)
  (r : PipelineResult) :
  outcome (task w wk (PathData file) file_name i models (Some load)) = Ok r ->
  partition_of r = (file_name, i).
Proof.
  rewrite task_direct_eq.
  destruct (load file i) as [t|e]; [|discriminate].
  destruct (transform_batch w t) as [df|e]; [|discriminate].
  cbv zeta. unfold outcome at 1. simpl.
  destruct (outcome (train_and_evaluate w wk df models i)); [|discriminate].
  intros H; injection H as <-. reflexivity.
Qed.

Lemma task_staged_partition (w : World) (wk : Worker) (t : Table)
  (file_name : string) (i : Key) (models : list BaseEstimator)
  (r : PipelineResult) :
  outcome (task w wk (FrameData t) file_name i models None) = Ok r ->
  partition_of r = (file_name, i).
Proof.
  rewrite task_staged_eq.
  destruct (transform_batch w t) as [df|e]; [|discriminate].
  cbv zeta. unfold outcome at 1. simpl.
  destruct (outcome (train_and_evaluate w wk df models i)); [|discriminate].
  intros H; injection H as <-. reflexivity.
Qed.

(** ** The direct task generator *)

Lemma pipelines_from_app (w : World) (c : Cluster) (j : nat)
  (a b : list (string * Key)) (models : list BaseEstimator) :
  pipelines_from w c j (a ++ b) models
  = pipelines_from w c j a models
    ++ pipelines_from w c (j + length a) b models.
Proof.
  revert j; induction a as [|[f k] a IH]; simpl; intros j.
  - now rewrite Nat.add_0_r.
  - rewrite IH. do 3 f_equal. lia.
Qed.

Lemma pipelines_from_length (w : World) (c : Cluster) (j : nat)
  (pairs : list (string * Key)) (models : list BaseEstimator) :
  length (pipelines_from w c j pairs models) = length pairs.
Proof.
  revert j; induction pairs as [|[f k] pairs IH]; simpl; intros j;
    [reflexivity|]. now rewrite IH.
Qed.

Lemma yield_tasks_eq (w : World) (c : Cluster) (j : nat) (file : string)
  (loc_list : list Key) (models : list BaseEstimator) :
  yield_tasks w c j file loc_list models
  = (map (fun i => Remote (Task file i)) loc_list,
     Ok (pipelines_from w c j (map (pair file) loc_list) models)).
Proof.
  revert j; induction loc_list as [|i rest IH]; intros j; [reflexivity|].
  cbn [yield_tasks map pipelines_from]. rewrite IH.
  unfold remote, bind, emit, ret. simpl. now rewrite app_nil_r.
Qed.

Lemma task_generator_from_eq (w : World) (c : Cluster) (j : nat)
  (files : list string) (models : list BaseEstimator) :
  task_generator_from w c j files models
  = (map (fun p => Remote (Task (fst p) (snd p))) (located w files),
     Ok (pipelines_from w c j (located w files) models)).
Proof.
  revert j; induction files as [|file rest IH]; intros j; [reflexivity|].
  cbn [task_generator_from located flat_map].
  destruct (read_table w file key_column) as [locdf|].
  - rewrite yield_tasks_eq, IH.
    unfold bind, ret. simpl.
    rewrite app_nil_r, map_app, map_map, pipelines_from_app, length_map.
    reflexivity.
  - apply IH.
Qed.

Lemma task_generator_eq (w : World) (c : Cluster)
  (files : list string) (models : list BaseEstimator) :
  task_generator w c files models
  = (map (fun p => Remote (Task (fst p) (snd p))) (located w files),
     Ok (pipelines_from w c 0 (located w files) models)).
Proof. apply task_generator_from_eq. Qed.

Lemma pipelines_from_partitions (w : World) (c : Cluster) (j : nat)
  (pairs : list (string * Key)) (models : list BaseEstimator)
  (results : list PipelineResult) :
  sequenceE (map outcome (pipelines_from w c j pairs models)) = Ok results ->
  map partition_of results = pairs.
Proof.
  unfold sequenceE.
  revert j results; induction pairs as [|[f k] pairs IH]; simpl;
    intros j results H.
  - now injection H as <-.
  - destruct (outcome (task w (workers c j) (PathData f) f k models
                         (Some (read_data w)))) as [r|e] eqn:Er;
      simpl in H; [|discriminate].
    destruct (mapE (fun r => r)
                (map outcome (pipelines_from w c (S j) pairs models)))
      as [rs|e] eqn:Ers; simpl in H; [|discriminate].
    injection H as <-. simpl.
    rewrite (task_direct_partition _ _ _ _ _ _ _ _ Er).
    f_equal. now apply (IH (S j)).
Qed.

(** ** The driver *)

Lemma filter_is_not_None (results : list PipelineResult) :
  filter is_not_None results = results.
Proof.
  induction results as [|r rs IH]; simpl; [reflexivity|]. now rewrite IH.
Qed.

Lemma run_eq (c : Cluster) (files : list string)
  (generator : list string -> list BaseEstimator -> M (list (M PipelineResult)))
  (models : list BaseEstimator) tr refs :
  generator files models = (tr, Ok refs) ->
  run c files generator models
  = match ray_wait (driver_sched c) (map outcome refs) with
    | Ok results =>
        (Stdout MsgStarting :: tr
           ++ [RayGet (length refs); Stdout MsgBlank;
               Stdout (MsgTotal (length results) (length results));
               Stdout MsgTimeTaken],
         Ok results)
    | Raise e =>
        (Stdout MsgStarting :: tr ++ [RayGet (length refs)], Raise e)
    end.
Proof.
  intros Hgen. unfold run. rewrite Hgen.
  unfold print at 1. cbn [bind emit].
  rewrite ray_get_eq, length_map.
  destruct (ray_wait (driver_sched c) (map outcome refs)) as [results|e]; cbn.
  - now rewrite filter_is_not_None.
  - reflexivity.
Qed.

Lemma run_outcome (c : Cluster) (files : list string)
  (generator : list string -> list BaseEstimator -> M (list (M PipelineResult)))
  (models : list BaseEstimator) tr refs :
  generator files models = (tr, Ok refs) ->
  outcome (run c files generator models)
  = ray_wait (driver_sched c) (map outcome refs).
Proof.
  intros H. rewrite (run_eq c files generator models tr refs H).
  now destruct (ray_wait (driver_sched c) (map outcome refs)).
Qed.

Lemma In_outcomes {A} (tasks : list (M A)) (t : M A) (e : Exn) :
  In t tasks -> outcome t = Raise e -> In (Raise e) (map outcome tasks).
Proof. intros Hin <-. now apply in_map. Qed.

(** ** The partition locator *)

Lemma key_eqb_eq (a b : Key) : key_eqb a b = true <-> a = b.
Proof.
  destruct a as [x|], b as [y|]; simpl; split; intros H;
    try discriminate; try reflexivity.
  - apply Z.eqb_eq in H. now subst.
  - injection H as ->. apply Z.eqb_refl.
Qed.

Lemma unique_In (k : Key) (l : list Key) : In k (unique l) <-> In k l.
Proof.
  induction l as [|x xs IH]; simpl; [tauto|].
  rewrite filter_In, IH. split.
  - intros [->|[H _]]; auto.
  - intros [->|H]; [now left|].
    destruct (key_eqb x k) eqn:E.
    + apply key_eqb_eq in E. now left.
    + right. split; [assumption|]. cbv beta. rewrite ?E. reflexivity.
Qed.

Lemma unique_NoDup (l : list Key) : NoDup (unique l).
Proof.
  induction l as [|x xs IH]; simpl; constructor.
  - rewrite filter_In. intros [_ H].
    assert (E : key_eqb x x = true) by now apply key_eqb_eq.
    cbv beta in H. rewrite E in H. discriminate.
  - now apply NoDup_filter.
Qed.

Lemma located_In (w : World) (files : list string) (f : string) (k : Key) :
  In (f, k) (located w files) <->
  In f files /\
  exists t, read_table w f key_column = Some t /\
            In k (map pickup_location_id t).
Proof.
  unfold located. rewrite in_flat_map. split.
  - intros (file & Hin & Hp).
    destruct (read_table w file key_column) as [t|] eqn:Et; [|contradiction].
    apply in_map_iff in Hp as (k' & Hk & Hin').
    injection Hk as -> ->. split; [assumption|].
    exists t. split; [assumption|]. now apply unique_In.
  - intros (Hin & t & Ht & Hk). exists f. split; [assumption|].
    rewrite Ht. apply in_map. now apply unique_In.
Qed.

Lemma NoDup_map_pair {A B} (a : A) (l : list B) :
  NoDup l -> NoDup (map (pair a) l).
Proof.
  induction 1 as [|x l Hnotin _ IH]; simpl; constructor; [|assumption].
  intros Hin. apply in_map_iff in Hin as (y & Hy & Hin).
  injection Hy as ->. contradiction.
Qed.

Lemma located_NoDup (w : World) (files : list string) :
  NoDup files -> NoDup (located w files).
Proof.
  induction 1 as [|f rest Hnotin Hnd IH]; [constructor|].
  change (located w (f :: rest))
    with ((match read_table w f key_column with
           | Some locdf =>
               map (pair f) (unique (map pickup_location_id locdf))
           | None => []
           end) ++ located w rest).
  apply NoDup_app; [| assumption |].
  - destruct (read_table w f key_column) as [t|]; [|constructor].
    apply NoDup_map_pair, unique_NoDup.
  - intros [f' k] Hin Hin'.
    apply located_In in Hin' as [Hrest _].
    destruct (read_table w f key_column) as [t|]; [|contradiction].
    apply in_map_iff in Hin as (k' & Hk & _). injection Hk as -> _.
    contradiction.
Qed.

Lemma filter_is_report_submissions {A} (fn : A -> RemoteFn) (l : list A) :
  filter is_report (map (fun x => Remote (fn x)) l) = [].
Proof. induction l as [|x l IH]; simpl; [reflexivity|]. exact IH. Qed.

Lemma pipelines_from_with_driver_sched (w : World) (c : Cluster)
  (sched : list nat) (j : nat) (pairs : list (string * Key))
  (models : list BaseEstimator) :
  pipelines_from w (with_driver_sched c sched) j pairs models
  = pipelines_from w c j pairs models.
Proof.
  revert j; induction pairs as [|[f k] pairs IH]; simpl; intros j;
    [reflexivity|]. now rewrite IH.
Qed.

Lemma run_direct_eq (w : World) (c : Cluster) (files : list string)
  (models : list BaseEstimator) :
  run c files (task_generator w c) models
  = let submitted :=
      map (fun p => Remote (Task (fst p) (snd p))) (located w files) in
    let pipelines := pipelines_from w c 0 (located w files) models in
    match ray_wait (driver_sched c) (map outcome pipelines) with
    | Ok results =>
        (Stdout MsgStarting :: submitted
           ++ [RayGet (length pipelines); Stdout MsgBlank;
               Stdout (MsgTotal (length results) (length results));
               Stdout MsgTimeTaken],
         Ok results)
    | Raise e =>
        (Stdout MsgStarting :: submitted ++ [RayGet (length pipelines)],
         Raise e)
    end.
Proof. apply run_eq, task_generator_eq. Qed.

(** X11.  The two counts of the report line are always the same number:
    the filter [x is not None] looks at the tuples [task] returns, never at
    the ranking inside them. *)
Lemma report_counts_coincide (w : World) (c : Cluster) (files : list string)
  (models : list BaseEstimator) (count_not_none count : nat) :
  In (Stdout (MsgTotal count_not_none count))
     (trace (run c files (task_generator w c) models)) ->
  count_not_none = count.
Proof.
  rewrite run_direct_eq. cbv zeta.
  destruct (ray_wait (driver_sched c)
              (map outcome
                 (pipelines_from w c 0 (located w files) models)))
    as [rs|e]; rewrite trace_pair; simpl;
    (intros [H|H]; [discriminate|]);
    apply in_app_or in H as [H|H];
    try (apply in_map_iff in H as (p & Hp & _); discriminate).
  - simpl in H.
    destruct H as [H|[H|[H|[H|[]]]]]; try discriminate.
    now injection H as <- <-.
  - simpl in H. destruct H as [H|[]]. discriminate.
Qed.

(** C10.  The driver submits one pipeline per located pair, in the order
    of the pairs.  When every pipeline returns, the run returns the list of
    their results in the order the pipelines were submitted, whichever
    order they complete in: it is the same under every completion schedule
    of the driver's wave.  Whenever the run returns, the (source, key)
    pairs of its results are the located pairs, sources in the order given
    and, within a source, keys in the order the locator found them. *)
Theorem results_follow_submission_order (w : World) (c : Cluster)
  (files : list string) (models : list BaseEstimator) :
  let pipelines := pipelines_from w c 0 (located w files) models in
  outcome (task_generator w c files models) = Ok pipelines /\
  (Forall returns pipelines ->
   outcome (run c files (task_generator w c) models)
   = sequenceE (map outcome pipelines) /\
   forall sched,
     outcome (run (with_driver_sched c sched) files
                (task_generator w (with_driver_sched c sched)) models)
     = outcome (run c files (task_generator w c) models)) /\
  (forall results,
      outcome (run c files (task_generator w c) models) = Ok results ->
      map partition_of results = located w files).
Proof.
  cbv zeta.
  assert (Hrun : forall c',
             outcome (run c' files (task_generator w c') models)
             = ray_wait (driver_sched c')
                 (map outcome
                    (pipelines_from w c' 0 (located w files) models))).
  { intros c'. apply (run_outcome c' files _ models _ _
                        (task_generator_eq w c' files models)). }
  split; [now rewrite task_generator_eq|].
  split.
  - intros Hall.
    destruct (mapE_all_Ok (fun x => outcome x) _ Hall) as [vs Hvs].
    assert (Hseq : sequenceE
                     (map outcome
                        (pipelines_from w c 0 (located w files) models))
                   = Ok vs).
    { unfold sequenceE. now rewrite mapE_map. }
    assert (Hany : forall sched,
               ray_wait sched
                 (map outcome
                    (pipelines_from w c 0 (located w files) models))
               = Ok vs).
    { intros sched. now apply ray_wait_Ok. }
    split.
    + now rewrite Hrun, Hany, Hseq.
    + intros sched.
      now rewrite !Hrun, pipelines_from_with_driver_sched, !Hany.
  - intros results H. rewrite Hrun in H. apply ray_wait_Ok in H.
    now apply pipelines_from_partitions in H.
Qed.

Lemma results_follow_submission_order_witness :
  Forall returns
    (pipelines_from Sample.world Sample.cluster 0
       (located Sample.world ["june.parquet"; "none.parquet"; "may.parquet"])
       Sample.models) /\
  outcome (run (with_driver_sched Sample.cluster [2; 0; 1]%nat)
             ["june.parquet"; "none.parquet"; "may.parquet"]
             (task_generator Sample.world
                (with_driver_sched Sample.cluster [2; 0; 1]%nat))
             Sample.models)
  = outcome (run Sample.cluster ["june.parquet"; "none.parquet"; "may.parquet"]
               (task_generator Sample.world Sample.cluster) Sample.models) /\
  exists results,
    outcome (run Sample.cluster ["june.parquet"; "none.parquet"; "may.parquet"]
               (task_generator Sample.world Sample.cluster) Sample.models)
    = Ok results /\
    map partition_of results
    = [("june.parquet", Some 5); ("may.parquet", Some 1);
       ("may.parquet", Some 2)] /\
    map partition_of results
    = located Sample.world ["june.parquet"; "none.parquet"; "may.parquet"].
Proof.
  assert (Hall : Forall returns
                   (pipelines_from Sample.world Sample.cluster 0
                      (located Sample.world
                         ["june.parquet"; "none.parquet"; "may.parquet"])
                      Sample.models)).
  { repeat constructor; eexists; vm_compute; reflexivity. }
  destruct (results_follow_submission_order Sample.world Sample.cluster
              ["june.parquet"; "none.parquet"; "may.parquet"] Sample.models)
    as (_ & Hsame & Horder).
  split; [exact Hall|].
  split; [exact (proj2 (Hsame Hall) [2; 0; 1]%nat)|].
  eexists. split; [vm_compute; reflexivity|]. split; [reflexivity|].
  exact (Horder _ eq_refl).
Defined.

(** C7, as the code has it.  When the run returns, the count it reports as
    the number of tasks is the number of located (source, key) pairs, the
    pairs whose pipeline yields the empty marker among them; the pairs are
    pairwise distinct when the sources are.  When any pipeline fails the
    run raises, and whenever the run raises it reports no count at all. *)
Theorem attempted_count_is_located_count (w : World) (c : Cluster)
  (files : list string) (models : list BaseEstimator) :
  let pipelines := pipelines_from w c 0 (located w files) models in
  let r := run c files (task_generator w c) models in
  (forall results,
      outcome r = Ok results ->
      length results = length (located w files) /\
      exists shown,
        filter is_report (trace r)
        = [Stdout (MsgTotal shown (length (located w files)))]) /\
  (forall t e, In t pipelines -> outcome t = Raise e ->
               exists e', outcome r = Raise e') /\
  (forall e, outcome r = Raise e -> filter is_report (trace r) = []) /\
  (NoDup files -> NoDup (located w files)).
Proof.
  cbv zeta. rewrite run_direct_eq. cbv zeta.
  destruct (ray_wait (driver_sched c)
              (map outcome
                 (pipelines_from w c 0 (located w files) models)))
    as [rs|e0] eqn:Eseq; rewrite ?outcome_pair, ?trace_pair.
  - apply ray_wait_Ok in Eseq.
    split; [|split; [|split; [discriminate|apply located_NoDup]]].
    + intros results H. injection H as <-.
      assert (Hlen : length rs = length (located w files)).
      { apply mapE_Ok_length in Eseq.
        now rewrite length_map, pipelines_from_length in Eseq. }
      split; [assumption|].
      exists (length rs). simpl.
      rewrite filter_app, filter_is_report_submissions. simpl.
      now rewrite Hlen.
    + intros t e Hin Ht. exfalso.
      exact (proj1 (sequenceE_Ok_no_Raise _) (ex_intro _ rs Eseq) e
               (In_outcomes _ t e Hin Ht)).
  - split; [discriminate|].
    split; [intros; now exists e0|].
    split; [|apply located_NoDup].
    intros _ _. simpl.
    rewrite filter_app, filter_is_report_submissions. reflexivity.
Qed.

Lemma attempted_count_is_located_count_witness :
  exists results shown,
    outcome (run Sample.cluster ["may.parquet"; "june.parquet"]
               (task_generator Sample.world Sample.cluster) Sample.models)
    = Ok results /\
    In (("may.parquet", Some 2), None) results /\
    length (located Sample.world ["may.parquet"; "june.parquet"]) = 3%nat /\
    filter is_report
      (trace (run Sample.cluster ["may.parquet"; "june.parquet"]
                (task_generator Sample.world Sample.cluster) Sample.models))
    = [Stdout (MsgTotal shown 3)].
Proof.
  destruct (attempted_count_is_located_count Sample.world Sample.cluster
              ["may.parquet"; "june.parquet"] Sample.models)
    as (Hok & _ & _ & _).
  destruct (Hok _ eq_refl) as (_ & shown & Hshown).
  eexists. exists shown.
  split; [vm_compute; reflexivity|].
  split; [right; left; reflexivity|].
  split; [reflexivity|].
  exact Hshown.
Defined.

(** C7 as stated fails: three pairs are located in the file, the pipeline
    of the third fails while transforming, and the run raises without
    reporting any count. *)
Lemma failed_pipeline_leaves_no_report :
  let r := run Sample.cluster ["may.parquet"]
             (task_generator Sample.world_dirty Sample.cluster)
             Sample.models in
  located Sample.world_dirty ["may.parquet"]
  = [("may.parquet", Some 1); ("may.parquet", Some 2); ("may.parquet", Some 3)]
  /\ outcome r = Raise (ValueError "n/a")
  /\ filter is_report (trace r) = []
  /\ ~ (exists non_empty, In (Stdout (MsgTotal non_empty 3)) (trace r)).
Proof.
  cbv zeta. split; [reflexivity|]. split; [reflexivity|].
  split; [reflexivity|].
  intros (n & Hin). vm_compute in Hin.
  repeat (destruct Hin as [Hin|Hin]; [discriminate|]). exact Hin.
Qed.

(** C2, as the code has it.  A failure while loading or transforming a
    partition is not caught: the pipeline fails with it.  Every located
    pipeline is submitted before the driver waits, so none is held back by
    another's failure; but when a pipeline fails the driver's wait raises
    the exception of one of the failed pipelines, and the run then returns
    no results and reports nothing.  The run returns when every pipeline
    does. *)
Theorem pipeline_failure_fails_the_run (w : World) (c : Cluster)
  (files : list string) (models : list BaseEstimator) :
  (forall wk file i e,
      read_data w file i = Raise e \/
      (exists t, read_data w file i = Ok t /\ transform_batch w t = Raise e) ->
      outcome (task w wk (PathData file) file i models (Some (read_data w)))
      = Raise e) /\
  let pipelines := pipelines_from w c 0 (located w files) models in
  let r := run c files (task_generator w c) models in
  filter is_remote (trace r)
  = map (fun p => Remote (Task (fst p) (snd p))) (located w files) /\
  (forall t e, In t pipelines -> outcome t = Raise e ->
               exists t' e',
                 In t' pipelines /\ outcome t' = Raise e' /\
                 outcome r = Raise e' /\ filter is_report (trace r) = []) /\
  (Forall (fun t => exists x, outcome t = Ok x) pipelines ->
   exists results, outcome r = Ok results).
Proof.
  split.
  { intros wk file i e H. rewrite task_direct_eq.
    destruct H as [H|(t & Ht & Htr)].
    - now rewrite H.
    - now rewrite Ht, Htr. }
  cbv zeta. rewrite run_direct_eq. cbv zeta.
  destruct (ray_wait (driver_sched c)
              (map outcome
                 (pipelines_from w c 0 (located w files) models)))
    as [rs|e0] eqn:Eseq; rewrite ?outcome_pair, ?trace_pair; simpl.
  - apply ray_wait_Ok in Eseq. split.
    { rewrite filter_app, filter_is_remote_map. simpl. apply app_nil_r. }
    split; [|intros _; now exists rs].
    intros t e Hin Ht. exfalso.
    exact (proj1 (sequenceE_Ok_no_Raise _) (ex_intro _ rs Eseq) e
             (In_outcomes _ t e Hin Ht)).
  - apply ray_wait_Raise in Eseq. split.
    { rewrite filter_app, filter_is_remote_map. simpl. apply app_nil_r. }
    split.
    { intros _ _ _ _.
      apply in_map_iff in Eseq as (t' & Ht' & Hin').
      exists t', e0. repeat split; try assumption.
      rewrite filter_app, filter_is_report_submissions. reflexivity. }
    intros Hall. exfalso.
    apply in_map_iff in Eseq as (t' & Ht' & Hin').
    rewrite Forall_forall in Hall. destruct (Hall _ Hin') as [x Hx].
    congruence.
Qed.

Lemma pipeline_failure_fails_the_run_witness :
  (exists t, read_data Sample.world_dirty "may.parquet" (Some 3) = Ok t /\
             transform_batch Sample.world_dirty t = Raise (ValueError "n/a"))
  /\ outcome (task Sample.world_dirty Sample.worker (PathData "may.parquet")
                "may.parquet" (Some 3) Sample.models
                (Some (read_data Sample.world_dirty)))
     = Raise (ValueError "n/a").
Proof.
  assert (H : exists t,
             read_data Sample.world_dirty "may.parquet" (Some 3) = Ok t /\
             transform_batch Sample.world_dirty t = Raise (ValueError "n/a")).
  { eexists. split; reflexivity. }
  split; [exact H|].
  destruct (pipeline_failure_fails_the_run Sample.world_dirty Sample.cluster
              ["may.parquet"] Sample.models) as (Htask & _).
  apply Htask. right. exact H.
Defined.

(** C2 as stated fails: the third partition of the file fails while it is
    transformed; the failure is not turned into a result for that partition,
    the run raises it and the results of the two partitions that did
    complete are not returned. *)
Lemma transform_failure_aborts_run :
  let r := run Sample.cluster ["may.parquet"]
             (task_generator Sample.world_dirty Sample.cluster)
             Sample.models in
  (exists ranked,
      outcome (task Sample.world_dirty Sample.worker (PathData "may.parquet")
                 "may.parquet" (Some 1) Sample.models
                 (Some (read_data Sample.world_dirty)))
      = Ok ("may.parquet", Some 1, Some ranked)) /\
  outcome (task Sample.world_dirty Sample.worker (PathData "may.parquet")
             "may.parquet" (Some 3) Sample.models
             (Some (read_data Sample.world_dirty)))
  = Raise (ValueError "n/a") /\
  outcome r = Raise (ValueError "n/a") /\
  ~ (exists results, outcome r = Ok results).
Proof.
  cbv zeta. split; [eexists; vm_compute; reflexivity|].
  split; [reflexivity|]. split; [reflexivity|].
  intros (results & H). vm_compute in H. discriminate.
Qed.

(** C4, as the code has it.  When the loader returns a batch with no row
    the pipeline returns the (source, key) with the empty marker, and it
    gets there through the transformer and the evaluation group: the empty
    batch is transformed, then handed to the group, which returns the
    marker as for any batch under [min_rows_per_partition] rows.  The
    trace shows both steps after the load when timing lines are printed. *)
Theorem empty_batch_goes_through_the_pipeline (w : World) (wk : Worker)
  (file file_name : string) (i : Key) (models : list BaseEstimator)
  (load : string -> Key -> Exc Table) :
  load file i = Ok [] ->
  transform_batch w [] = Ok [] /\
  train_and_evaluate w wk [] models i
  = (printed_time w (MsgTooSmall i), Ok None) /\
  task w wk (PathData file) file_name i models (Some load)
  = (printed_time w (MsgLoadingTime i)
       ++ printed_time w (MsgTransformTime i)
       ++ printed_time w (MsgTooSmall i),
     Ok (file_name, i, None)) /\
  task w wk (FrameData []) file_name i models None
  = (printed_time w (MsgTransformTime i) ++ printed_time w (MsgTooSmall i),
     Ok (file_name, i, None)).
Proof.
  intros Hload.
  assert (Hsmall : train_and_evaluate w wk [] models i
                   = (printed_time w (MsgTooSmall i), Ok None)).
  { apply train_and_evaluate_small. unfold min_rows_per_partition.
    simpl. lia. }
  split; [reflexivity|]. split; [assumption|]. split.
  - rewrite task_direct_eq, Hload.
    change (transform_batch w []) with (@Ok DataFrame []).
    cbv beta iota zeta. now rewrite Hsmall.
  - rewrite task_staged_eq.
    change (transform_batch w []) with (@Ok DataFrame []).
    cbv beta iota zeta. now rewrite Hsmall.
Qed.

Lemma empty_batch_goes_through_the_pipeline_witness :
  read_data Sample.world_verbose "may.parquet" (Some 9) = Ok [] /\
  task Sample.world_verbose Sample.worker (PathData "may.parquet")
    "may.parquet" (Some 9) Sample.models (Some (read_data Sample.world_verbose))
  = ([Stdout (MsgLoadingTime (Some 9)); Stdout (MsgTransformTime (Some 9));
      Stdout (MsgTooSmall (Some 9))],
     Ok ("may.parquet", Some 9, None)).
Proof.
  split; [reflexivity|].
  destruct (empty_batch_goes_through_the_pipeline Sample.world_verbose
              Sample.worker "may.parquet" "may.parquet" (Some 9) Sample.models
              (read_data Sample.world_verbose) eq_refl)
    as (_ & _ & Htask & _).
  exact Htask.
Defined.

(** C4 as stated fails: the loader returns an empty batch for a key that
    has no row in the file, and the pipeline still runs the transformer
    (its timing line is printed) and calls the evaluation group (which
    prints that the batch is too small) before it returns the marker. *)
Lemma empty_batch_is_transformed_and_evaluated :
  let pipeline := task Sample.world_verbose Sample.worker
                    (PathData "may.parquet") "may.parquet" (Some 9)
                    Sample.models (Some (read_data Sample.world_verbose)) in
  read_data Sample.world_verbose "may.parquet" (Some 9) = Ok [] /\
  outcome pipeline = Ok ("may.parquet", Some 9, None) /\
  In (Stdout (MsgTransformTime (Some 9))) (trace pipeline) /\
  In (Stdout (MsgTooSmall (Some 9))) (trace pipeline) /\
  trace pipeline <> [Stdout (MsgLoadingTime (Some 9))].
Proof.
  cbv zeta. split; [reflexivity|]. split; [reflexivity|].
  split; [right; left; reflexivity|].
  split; [right; right; left; reflexivity|].
  vm_compute. discriminate.
Qed.

(** ** Staging through the object store *)

Lemma outcome_bind_Ok {A B} (m : M A) (k : A -> M B) (a : A) :
  outcome m = Ok a -> outcome (bind m k) = outcome (k a).
Proof.
  destruct m as [tr r]. unfold outcome. simpl. intros ->.
  now destruct (k a).
Qed.

Lemma outcome_bind {A B} (m : M A) (k : A -> M B) :
  outcome (bind m k) = bindE (outcome m) (fun a => outcome (k a)).
Proof.
  destruct m as [tr [a|e]]; unfold outcome; simpl; [|reflexivity].
  now destruct (k a).
Qed.

Lemma mapM_outcome {A B} (f : A -> M B) (l : list A) :
  outcome (mapM f l) = mapE (fun x => outcome (f x)) l.
Proof.
  induction l as [|x l IH]; [reflexivity|].
  cbn [mapM mapE]. rewrite outcome_bind.
  destruct (outcome (f x)) as [y|e]; [|reflexivity].
  cbn [bindE]. rewrite outcome_bind, IH.
  now destruct (mapE (fun x => outcome (f x)) l).
Qed.

Lemma mapM_exact {A B} (f : A -> M B) (tr : A -> list Event) (g : A -> B)
  (l : list A) :
  (forall x, In x l -> f x = (tr x, Ok (g x))) ->
  mapM f l = (flat_map tr l, Ok (map g l)).
Proof.
  induction l as [|x l IH]; intros H; [reflexivity|].
  cbn [mapM map flat_map].
  rewrite (H x (or_introl eq_refl)), IH by (intros; apply H; now right).
  unfold bind, ret. simpl. now rewrite app_nil_r.
Qed.

Lemma sequenceE_map_Ok {A B} (f : A -> Exc B) (g : A -> B) (l : list A) :
  (forall x, In x l -> f x = Ok (g x)) -> sequenceE (map f l) = Ok (map g l).
Proof.
  unfold sequenceE.
  induction l as [|x l IH]; simpl; intros H; [reflexivity|].
  rewrite (H x (or_introl eq_refl)), IH; auto.
Qed.

(** *** The load task *)

Lemma stage_batch_eq (w : World) (t : Table) (i : Key) :
  (df <- liftE (to_pandas w (filter (fun r =>
                                       key_matches i (pickup_location_id r))
                                    t)) ;;
   ref <- ray_put df ;;
   ret (i, ref))
  = if pandas_holds w (rows_of t i) then ([RayPut], Ok (i, rows_of t i))
    else ([], Raise (ArrowInvalid "out of bounds timestamp")).
Proof.
  fold (rows_of t i). unfold to_pandas.
  now destruct (pandas_holds w (rows_of t i)).
Qed.

Lemma read_into_object_store_unreadable (w : World) (file : string) :
  read_table w file all_columns = None ->
  read_into_object_store w file = ([Stdout (MsgLoading file)], Ok []).
Proof. intros H. unfold read_into_object_store. now rewrite H. Qed.

Lemma flat_map_singleton {A B} (b : B) (l : list A) :
  flat_map (fun _ => [b]) l = map (fun _ => b) l.
Proof. induction l as [|x l IH]; simpl; [reflexivity|now rewrite IH]. Qed.

Lemma read_into_object_store_staged (w : World) (file : string) (t : Table) :
  read_table w file all_columns = Some t ->
  Forall (fun k => pandas_holds w (rows_of t k) = true)
         (unique (map pickup_location_id t)) ->
  read_into_object_store w file
  = (Stdout (MsgLoading file)
       :: map (fun _ => RayPut) (unique (map pickup_location_id t)),
     Ok (map (fun k => (k, rows_of t k)) (unique (map pickup_location_id t)))).
Proof.
  intros Ht Hall. unfold read_into_object_store. rewrite Ht.
  rewrite (mapM_exact _ (fun _ => [RayPut]) (fun k => (k, rows_of t k))).
  - now rewrite flat_map_singleton.
  - intros k Hk. rewrite stage_batch_eq.
    rewrite Forall_forall in Hall. now rewrite (Hall k Hk).
Qed.

Lemma read_into_object_store_outcome (w : World) (file : string) :
  outcome (read_into_object_store w file)
  = match read_table w file all_columns with
    | None => Ok []
    | Some t =>
        mapE (fun k => if pandas_holds w (rows_of t k)
                       then Ok (k, rows_of t k)
                       else Raise (ArrowInvalid "out of bounds timestamp"))
             (unique (map pickup_location_id t))
    end.
Proof.
  unfold read_into_object_store.
  rewrite (outcome_bind_Ok _ _ tt) by reflexivity.
  destruct (read_table w file all_columns) as [t|]; [|reflexivity].
  rewrite mapM_outcome. apply mapE_ext. intros k _.
  rewrite stage_batch_eq. now destruct (pandas_holds w (rows_of t k)).
Qed.

Lemma read_into_object_store_fails (w : World) (file : string) (t : Table)
  (k : Key) :
  read_table w file all_columns = Some t ->
  In k (map pickup_location_id t) ->
  pandas_holds w (rows_of t k) = false ->
  outcome (read_into_object_store w file)
  = Raise (ArrowInvalid "out of bounds timestamp").
Proof.
  intros Ht Hk Hno. rewrite read_into_object_store_outcome, Ht.
  destruct (mapE_some_Raise
              (fun k => if pandas_holds w (rows_of t k)
                        then Ok (k, rows_of t k)
                        else Raise (ArrowInvalid "out of bounds timestamp"))
              (unique (map pickup_location_id t)) k
              (ArrowInvalid "out of bounds timestamp"))
    as [e' He'].
  - now apply unique_In.
  - now rewrite Hno.
  - rewrite He'. apply mapE_Raise_In in He' as (k' & _ & Hk').
    destruct (pandas_holds w (rows_of t k')); [discriminate|].
    now injection Hk' as <-.
Qed.

Lemma read_into_object_store_returns (w : World) (file : string)
  (groups : list (Key * Table)) :
  outcome (read_into_object_store w file) = Ok groups ->
  groups = staged_groups w file /\
  forall t, read_table w file all_columns = Some t ->
            Forall (fun k => pandas_holds w (rows_of t k) = true)
                   (unique (map pickup_location_id t)).
Proof.
  rewrite read_into_object_store_outcome. unfold staged_groups.
  destruct (read_table w file all_columns) as [t|].
  - intros H. apply mapE_Ok_Forall2 in H.
    assert (Hboth : groups
                    = map (fun k => (k, rows_of t k))
                          (unique (map pickup_location_id t)) /\
                    Forall (fun k => pandas_holds w (rows_of t k) = true)
                           (unique (map pickup_location_id t))).
    { induction H as [|k g ks gs Hk _ [IH1 IH2]]; [now split|].
      destruct (pandas_holds w (rows_of t k)) eqn:E; [|discriminate].
      injection Hk as <-. split; [simpl; now rewrite IH1|].
      now constructor. }
    destruct Hboth as [Hg Hall]. split; [exact Hg|].
    intros t' Ht'. now injection Ht' as <-.
  - intros H. injection H as <-. split; [reflexivity|discriminate].
Qed.

Lemma loads_return (w : World) (files : list string) :
  Forall (load_returns w) files ->
  sequenceE (map (fun f => outcome (read_into_object_store w f)) files)
  = Ok (map (staged_groups w) files).
Proof.
  intros Hall. apply sequenceE_map_Ok. intros f Hin.
  rewrite Forall_forall in Hall. destruct (Hall f Hin) as [groups Hg].
  rewrite Hg. f_equal. now apply read_into_object_store_returns in Hg.
Qed.

(** *** The staged generator *)

Lemma yield_staged_outcome (w : World) (c : Cluster) (j : nat) (file : string)
  (refs : list (Key * Table)) (models : list BaseEstimator) :
  yield_staged w c j file refs models
  = (map (fun kr => Remote (Task file (fst kr))) refs,
     Ok (staged_from w c j file refs models)).
Proof.
  revert j; induction refs as [|[i ref] rest IH]; intros j; [reflexivity|].
  cbn [yield_staged staged_from map]. rewrite IH.
  unfold remote, bind, emit, ret. simpl. now rewrite app_nil_r.
Qed.

Lemma yield_groups_outcome (w : World) (c : Cluster) (j : nat)
  (groups : list (string * list (Key * Table))) (models : list BaseEstimator) :
  yield_groups w c j groups models
  = (map (fun p => Remote (Task (fst p) (snd p))) (pairs_of_groups groups),
     Ok (groups_from w c j groups models)).
Proof.
  revert j; induction groups as [|[file refs] rest IH]; intros j;
    [reflexivity|].
  cbn [yield_groups groups_from]. rewrite yield_staged_outcome, IH.
  unfold bind, ret, pairs_of_groups. simpl.
  now rewrite app_nil_r, map_app, map_map.
Qed.

Lemma task_generator_with_object_store_empty (w : World) (c : Cluster)
  (models : list BaseEstimator) :
  task_generator_with_object_store w c [] models
  = ([], Raise (ValueError "bundles must be a non-empty list")).
Proof. reflexivity. Qed.

Lemma task_generator_with_object_store_eq (w : World) (c : Cluster)
  (files : list string) (models : list BaseEstimator) :
  files <> [] ->
  task_generator_with_object_store w c files models
  = match ray_wait (staging_sched c)
            (map (fun f => outcome (read_into_object_store w f)) files) with
    | Ok loaded =>
        let group_refs :=
          fold_left (fun d fr => dict_set d (fst fr) (snd fr))
                    (combine files loaded) [] in
        ([PlacementGroup (length files); PgReady]
           ++ map (fun f => Remote (ReadIntoObjectStore f)) files
           ++ [RayGet (length files); RemovePlacementGroup]
           ++ map (fun p => Remote (Task (fst p) (snd p)))
                  (pairs_of_groups group_refs),
         Ok (groups_from w c 0 group_refs models))
    | Raise e =>
        ([PlacementGroup (length files); PgReady]
           ++ map (fun f => Remote (ReadIntoObjectStore f)) files
           ++ [RayGet (length files)],
         Raise e)
    end.
Proof.
  intros Hne. unfold task_generator_with_object_store, placement_group.
  destruct files as [|f0 fs]; [contradiction|].
  set (files := f0 :: fs). cbn [length Nat.eqb].
  rewrite (mapM_remote ReadIntoObjectStore (read_into_object_store w) files).
  unfold emit at 1 2. cbn [bind].
  rewrite ray_get_eq, !length_map, map_map.
  destruct (ray_wait (staging_sched c)
              (map (fun f => outcome (read_into_object_store w f)) files))
    as [loaded|e].
  - cbn [bind emit]. rewrite yield_groups_outcome.
    cbv zeta. simpl. reflexivity.
  - cbn [bind]. simpl. reflexivity.
Qed.

Lemma task_generator_with_object_store_outcome (w : World) (c : Cluster)
  (files : list string) (models : list BaseEstimator) :
  files <> [] ->
  Forall (load_returns w) files ->
  task_generator_with_object_store w c files models
  = ([PlacementGroup (length files); PgReady]
       ++ map (fun f => Remote (ReadIntoObjectStore f)) files
       ++ [RayGet (length files); RemovePlacementGroup]
       ++ map (fun p => Remote (Task (fst p) (snd p))) (staged_pairs w files),
     Ok (groups_from w c 0 (group_refs_of w files) models)).
Proof.
  intros Hne Hall. rewrite task_generator_with_object_store_eq by assumption.
  rewrite (proj2 (ray_wait_Ok _ _ _) (loads_return w files Hall)).
  reflexivity.
Qed.

Lemma task_generator_with_object_store_fails (w : World) (c : Cluster)
  (files : list string) (models : list BaseEstimator) (f : string) (e : Exn) :
  files <> [] ->
  In f files -> outcome (read_into_object_store w f) = Raise e ->
  exists f' e',
    In f' files /\ outcome (read_into_object_store w f') = Raise e' /\
    task_generator_with_object_store w c files models
    = ([PlacementGroup (length files); PgReady]
         ++ map (fun f => Remote (ReadIntoObjectStore f)) files
         ++ [RayGet (length files)],
       Raise e').
Proof.
  intros Hne Hin Hf.
  rewrite task_generator_with_object_store_eq by assumption.
  destruct (ray_wait_failed (staging_sched c)
              (map (fun f => outcome (read_into_object_store w f)) files) e)
    as (e' & Hw & Hin').
  { rewrite <- Hf. exact (in_map _ files f Hin). }
  apply in_map_iff in Hin' as (f' & Hf' & Hin').
  exists f', e'. rewrite Hw. auto.
Qed.

(** *** The dict of staged groups *)

Lemma dict_set_In {V} (d : list (string * V)) (k k' : string) (v v' : V) :
  In (k', v') (dict_set d k v) -> (k' = k /\ v' = v) \/ In (k', v') d.
Proof.
  induction d as [|[k0 v0] d IH]; simpl.
  - intros [H|[]]. injection H as <- <-. now left.
  - destruct (String.eqb_spec k0 k) as [->|Hne]; simpl.
    + intros [H|H]; [injection H as <- <-; now left|now right; right].
    + intros [H|H]; [now right; left|].
      destruct (IH H) as [?|?]; [now left|now right; right].
Qed.

Lemma dict_set_keys {V} (d : list (string * V)) (k k' : string) (v : V) :
  k' = k \/ In k' (map fst d) -> In k' (map fst (dict_set d k v)).
Proof.
  induction d as [|[k0 v0] d IH]; simpl.
  - intros [->|[]]. now left.
  - destruct (String.eqb_spec k0 k) as [->|Hne]; simpl.
    + intros [->|[H|H]]; auto.
    + intros [->|[H|H]]; auto.
Qed.

Lemma dict_fold_spec {V} (val : string -> V) (files : list string)
  (d : list (string * V)) :
  (forall k v, In (k, v) d -> v = val k) ->
  let d' := fold_left (fun d fr => dict_set d (fst fr) (snd fr))
                      (combine files (map val files)) d in
  (forall k v, In (k, v) d' -> v = val k) /\
  (forall f, In f files \/ In f (map fst d) -> In f (map fst d')).
Proof.
  revert d; induction files as [|f files IH]; simpl; intros d Hd.
  - split; [assumption|]. intros f [[]|H]. assumption.
  - destruct (IH (dict_set d f (val f))) as [Hval Hkeys].
    { intros k v H. apply dict_set_In in H as [[-> ->]|H]; auto. }
    split; [assumption|].
    intros f' H. apply Hkeys.
    destruct H as [[<-|H]|H]; auto.
    + right. apply dict_set_keys. now left.
    + right. apply dict_set_keys. now right.
Qed.

Lemma group_refs_of_In (w : World) (files : list string) (f : string) :
  In f files -> In (f, staged_groups w f) (group_refs_of w files).
Proof.
  intros Hin.
  destruct (dict_fold_spec (staged_groups w) files []) as [Hval Hkeys];
    [intros k v []|].
  fold (group_refs_of w files) in Hval, Hkeys.
  specialize (Hkeys f (or_introl Hin)).
  apply in_map_iff in Hkeys as ([f' v] & Hf & Hin'). simpl in Hf. subst f'.
  now rewrite <- (Hval _ _ Hin').
Qed.

Lemma staged_pairs_In (w : World) (files : list string) (f : string)
  (t : Table) (k : Key) :
  In f files -> read_table w f all_columns = Some t ->
  In k (map pickup_location_id t) ->
  In (f, k) (staged_pairs w files).
Proof.
  intros Hin Ht Hk. unfold staged_pairs, pairs_of_groups.
  apply in_flat_map. exists (f, staged_groups w f).
  split; [now apply group_refs_of_In|]. simpl.
  unfold staged_groups. rewrite Ht. rewrite map_map. simpl.
  apply in_map_iff. exists k. split; [reflexivity|]. now apply unique_In.
Qed.

Lemma staged_from_In (w : World) (c : Cluster) (j : nat) (file : string)
  (refs : list (Key * Table)) (models : list BaseEstimator) (k : Key)
  (ref : Table) :
  In (k, ref) refs ->
  exists j', In (task w (workers c j') (FrameData ref) file k models None)
                (staged_from w c j file refs models).
Proof.
  revert j; induction refs as [|[i r] rest IH]; intros j; [contradiction|].
  intros [H|H].
  - injection H as -> ->. exists j. now left.
  - destruct (IH (S j) H) as [j' Hj']. exists j'. now right.
Qed.

Lemma groups_from_In (w : World) (c : Cluster) (j : nat)
  (groups : list (string * list (Key * Table))) (models : list BaseEstimator)
  (file : string) (refs : list (Key * Table)) (k : Key) (ref : Table) :
  In (file, refs) groups -> In (k, ref) refs ->
  exists j', In (task w (workers c j') (FrameData ref) file k models None)
                (groups_from w c j groups models).
Proof.
  revert j; induction groups as [|[f rs] rest IH]; intros j; [contradiction|].
  intros [H|H] Hk.
  - injection H as -> ->.
    destruct (staged_from_In w c j file refs models k ref Hk) as [j' Hj'].
    exists j'. cbn [groups_from]. apply in_or_app. now left.
  - destruct (IH (j + length rs)%nat H Hk) as [j' Hj'].
    exists j'. cbn [groups_from]. apply in_or_app. now right.
Qed.

(** C8, as the code has it.  The generator is given at least one source.
    A load task whose read fails returns nothing for its source; a load
    task whose read succeeds stages one batch per distinct key, the rows of
    that key, and fails when a batch cannot be converted.  When every load
    task returns, the generator records the placement group created and
    awaited, one load submission per source, the wait for the loads, the
    removal of the placement group, and then one pipeline submission per
    staged batch: every key of every source whose read succeeds gets a
    pipeline that transforms its batch and evaluates the routines on it,
    whatever the reads of the other sources did.  When a load task fails,
    the generator fails with the exception of a failed load task at the
    wait: the placement group is not removed and no pipeline is
    submitted, for any source. *)
Theorem staging_releases_the_placement_group (w : World) (c : Cluster)
  (files : list string) (models : list BaseEstimator) :
  files <> [] ->
  let g := task_generator_with_object_store w c files models in
  let before :=
    [PlacementGroup (length files); PgReady]
      ++ map (fun f => Remote (ReadIntoObjectStore f)) files in
  (forall f, read_table w f all_columns = None ->
             read_into_object_store w f = ([Stdout (MsgLoading f)], Ok [])) /\
  (forall f t,
      read_table w f all_columns = Some t ->
      let keys := unique (map pickup_location_id t) in
      (Forall (fun k => pandas_holds w (rows_of t k) = true) keys ->
       read_into_object_store w f
       = (Stdout (MsgLoading f) :: map (fun _ => RayPut) keys,
          Ok (map (fun k => (k, rows_of t k)) keys))) /\
      (forall k, In k keys -> pandas_holds w (rows_of t k) = false ->
                 outcome (read_into_object_store w f)
                 = Raise (ArrowInvalid "out of bounds timestamp"))) /\
  (Forall (load_returns w) files ->
   trace g
   = before ++ [RayGet (length files); RemovePlacementGroup]
       ++ map (fun p => Remote (Task (fst p) (snd p))) (staged_pairs w files) /\
   outcome g = Ok (groups_from w c 0 (group_refs_of w files) models) /\
   forall f t k,
     In f files -> read_table w f all_columns = Some t ->
     In k (map pickup_location_id t) ->
     In (Remote (Task f k)) (trace g) /\
     exists j,
       In (task w (workers c j) (FrameData (rows_of t k)) f k models None)
          (groups_from w c 0 (group_refs_of w files) models)) /\
  (forall wk ref f k,
      outcome (task w wk (FrameData ref) f k models None)
      = match transform_batch w ref with
        | Raise e => Raise e
        | Ok df =>
            match outcome (train_and_evaluate w wk df models k) with
            | Ok ranked => Ok (f, k, ranked)
            | Raise e => Raise e
            end
        end) /\
  (forall f e,
      In f files -> outcome (read_into_object_store w f) = Raise e ->
      exists f' e',
        In f' files /\ outcome (read_into_object_store w f') = Raise e' /\
        outcome g = Raise e' /\
        trace g = before ++ [RayGet (length files)]).
Proof.
  intros Hne. cbv zeta.
  split; [apply read_into_object_store_unreadable|].
  split.
  { intros f t Ht. split.
    - now apply read_into_object_store_staged.
    - intros k Hk Hno.
      apply (read_into_object_store_fails w f t k Ht); [|assumption].
      now apply unique_In. }
  split.
  { intros Hall.
    rewrite (task_generator_with_object_store_outcome w c files models Hne Hall).
    rewrite outcome_pair, trace_pair.
    split; [now rewrite <- app_assoc|]. split; [reflexivity|].
    intros f t k Hin Ht Hk. split.
    - apply in_or_app; right. apply in_or_app; right.
      apply in_or_app; right.
      apply in_map_iff. exists (f, k). split; [reflexivity|].
      eapply staged_pairs_In; eassumption.
    - apply (groups_from_In w c 0 _ models f (staged_groups w f)).
      + now apply group_refs_of_In.
      + unfold staged_groups. rewrite Ht.
        apply in_map_iff. exists k. split; [reflexivity|].
        now apply unique_In. }
  split.
  { intros wk ref f k. rewrite task_staged_eq.
    destruct (transform_batch w ref) as [df|e]; [|reflexivity].
    cbv zeta. now rewrite outcome_pair. }
  intros f e Hin Hf.
  destruct (task_generator_with_object_store_fails w c files models f e
              Hne Hin Hf) as (f' & e' & Hin' & Hf' & ->).
  exists f', e'. rewrite outcome_pair, trace_pair.
  split; [assumption|]. split; [assumption|]. split; reflexivity.
Qed.

Lemma staging_releases_the_placement_group_witness :
  ["none.parquet"; "may.parquet"] <> [] /\
  Forall (load_returns Sample.world) ["none.parquet"; "may.parquet"] /\
  trace (task_generator_with_object_store Sample.world Sample.cluster
           ["none.parquet"; "may.parquet"] Sample.models)
  = [PlacementGroup 2; PgReady;
     Remote (ReadIntoObjectStore "none.parquet");
     Remote (ReadIntoObjectStore "may.parquet");
     RayGet 2; RemovePlacementGroup;
     Remote (Task "may.parquet" (Some 1));
     Remote (Task "may.parquet" (Some 2))] /\
  In (Remote (Task "may.parquet" (Some 2)))
     (trace (task_generator_with_object_store Sample.world Sample.cluster
               ["none.parquet"; "may.parquet"] Sample.models)).
Proof.
  assert (Hne : ["none.parquet"; "may.parquet"] <> []) by discriminate.
  assert (Hall : Forall (load_returns Sample.world)
                        ["none.parquet"; "may.parquet"]).
  { repeat constructor; eexists; vm_compute; reflexivity. }
  split; [exact Hne|]. split; [exact Hall|].
  destruct (staging_releases_the_placement_group Sample.world Sample.cluster
              ["none.parquet"; "may.parquet"] Sample.models Hne)
    as (_ & _ & Hok & _).
  destruct (Hok Hall) as (Htrace & _ & Hin).
  split; [exact Htrace|].
  apply (Hin "may.parquet" Sample.may (Some 2)).
  - right; left; reflexivity.
  - reflexivity.
  - simpl. right; right; left; reflexivity.
Defined.

(** C8, the counterexample.  Two sources are staged; one batch of the
    first cannot be converted, so its load task fails after the read.  The
    load task of the second source returns its batches, but the generator
    fails at the wait: the placement group is created and never removed,
    and no pipeline is submitted for the second source either. *)
Lemma failed_load_keeps_the_placement_group :
  let g := task_generator_with_object_store Sample.world_far Sample.cluster
             ["june.parquet"; "may.parquet"] Sample.models in
  outcome (read_into_object_store Sample.world_far "june.parquet")
  = Raise (ArrowInvalid "out of bounds timestamp") /\
  load_returns Sample.world_far "may.parquet" /\
  outcome g = Raise (ArrowInvalid "out of bounds timestamp") /\
  trace g
  = [PlacementGroup 2; PgReady;
     Remote (ReadIntoObjectStore "june.parquet");
     Remote (ReadIntoObjectStore "may.parquet");
     RayGet 2] /\
  ~ In RemovePlacementGroup (trace g) /\
  (forall k, ~ In (Remote (Task "may.parquet" k)) (trace g)).
Proof.
  cbv zeta.
  split; [reflexivity|].
  split; [eexists; vm_compute; reflexivity|].
  split; [reflexivity|].
  assert (Htrace :
            trace (task_generator_with_object_store Sample.world_far
                     Sample.cluster ["june.parquet"; "may.parquet"]
                     Sample.models)
            = [PlacementGroup 2; PgReady;
               Remote (ReadIntoObjectStore "june.parquet");
               Remote (ReadIntoObjectStore "may.parquet");
               RayGet 2]) by reflexivity.
  split; [exact Htrace|]. rewrite Htrace.
  split.
  - simpl. intros H.
    repeat (destruct H as [H|H]; [discriminate|]). exact H.
  - intros k H. simpl in H.
    repeat (destruct H as [H|H]; [discriminate|]). exact H.
Qed.

(** * Further properties *)

(** ** Trip durations *)

Lemma dt_seconds_range (d p : option Z) (s : Z) :
  dt_seconds d p = Some s -> 0 <= s < 86400.
Proof.
  destruct d as [d|], p as [p|]; simpl; try discriminate.
  intros H; injection H as <-. apply Z.mod_pos_bound. lia.
Qed.

(** X1.  Every trip duration [transform_batch] writes lies between 0 and
    86399 seconds: it is the difference of the two timestamps reduced
    modulo one day, so a trip of a day or more, or one whose dropoff
    precedes its pickup, wraps around; it is the plain difference when that
    is within a day.  The duration is missing exactly when one of the
    timestamps is. *)
Theorem trip_duration_is_within_a_day (w : World) (df : Table)
  (out : DataFrame) :
  transform_batch w df = Ok out ->
  Forall (fun o =>
            (forall s, trip_duration o = Some s ->
                       0 <= s < 86400 /\
                       exists p d, r_pickup_at o = Some p /\
                                   r_dropoff_at o = Some d /\
                                   s = (d - p) mod 86400 /\
                                   (0 <= d - p < 86400 -> s = d - p)) /\
            (trip_duration o = None <->
             r_pickup_at o = None \/ r_dropoff_at o = None))
         out.
Proof.
  intros H. apply transform_batch_Ok in H.
  induction H as [|r o df out (_ & _ & _ & _ & Hdur) _ IH]; constructor;
    [|assumption].
  rewrite Hdur. split.
  - intros s Hs. split; [eapply dt_seconds_range; eassumption|].
    destruct (r_dropoff_at o) as [d|], (r_pickup_at o) as [p|];
      simpl in Hs; try discriminate.
    injection Hs as <-. exists p, d. repeat split.
    intros Hr. now apply Z.mod_small.
  - destruct (r_dropoff_at o) as [d|], (r_pickup_at o) as [p|]; simpl;
      split; intros H; try discriminate; auto;
      destruct H; discriminate.
Qed.

Lemma trip_duration_is_within_a_day_witness :
  exists out,
    transform_batch Sample.world Sample2.odd_trips = Ok out /\
    map trip_duration out = [Some 1200; Some 86340; None] /\
    Forall (fun o => forall s, trip_duration o = Some s -> 0 <= s < 86400) out.
Proof.
  eexists. split; [vm_compute; reflexivity|]. split; [reflexivity|].
  eapply Forall_impl;
    [|exact (trip_duration_is_within_a_day Sample.world Sample2.odd_trips
              _ eq_refl)].
  intros o [H _] s Hs. exact (proj1 (H s Hs)).
Defined.

(** ** Trainer units *)

Lemma Qsum_abs_errors_nonneg (ys : list Z) (p : list Q) :
  (0 <= Qsum (abs_errors ys p))%Q.
Proof.
  revert p; induction ys as [|y ys IH]; intros [|b p];
    try exact (Qle_refl 0).
  change (0 + 0 <= Qabs (inject_Z y - b) + Qsum (abs_errors ys p))%Q.
  apply Qplus_le_compat; [apply Qabs_nonneg|apply IH].
Qed.

Lemma Qred_nonneg (q : Q) : (0 <= q)%Q -> (0 <= Qred q)%Q.
Proof.
  intros H. apply (Qle_trans _ q); [exact H|].
  apply Qle_lteq. right. apply Qeq_sym, Qred_correct.
Qed.

Lemma all_finite_Some (y : list (option Z)) (ys : list Z) :
  all_finite y = Some ys ->
  Forall (fun v => v <> None) y /\ length ys = length y.
Proof.
  revert ys; induction y as [|[v|] y IH]; simpl; intros ys H.
  - injection H as <-. split; [constructor|reflexivity].
  - destruct (all_finite y) as [vs|]; [|discriminate].
    injection H as <-. destruct (IH vs eq_refl) as [Hf Hl].
    split; [constructor; [discriminate|assumption]|]. simpl. now rewrite Hl.
  - discriminate.
Qed.

Lemma mean_absolute_error_Ok (y_true : list (option Z)) (y_pred : list Q)
  (error : Q) :
  mean_absolute_error y_true y_pred = Ok error ->
  (0 <= error)%Q /\
  y_true <> [] /\
  length y_pred = length y_true /\
  Forall (fun v => v <> None) y_true.
Proof.
  unfold mean_absolute_error.
  destruct (Nat.eqb_spec (length y_true) (length y_pred)) as [Hlen|];
    cbn [negb]; [|discriminate].
  destruct (all_finite y_true) as [ys|] eqn:Ef; [|discriminate].
  apply all_finite_Some in Ef as [Hfin Hys].
  destruct (Nat.eqb_spec (length ys) 0) as [|Hne]; [discriminate|].
  intros H.
  apply (f_equal (fun r => match r with Ok x => x | Raise _ => 0%Q end)) in H.
  cbv beta iota in H. rewrite <- H.
  split; [|split; [|split]]; auto.
  - apply Qred_nonneg, Qle_shift_div_l.
    + unfold Qlt. simpl. lia.
    + rewrite Qmult_0_l. apply Qsum_abs_errors_nonneg.
  - intros ->. simpl in Hys. contradiction.
Qed.

(** X2.  A trainer unit returns a score only when the routine's [fit] and
    [predict] both succeed, the test set is not empty, [predict] gives one
    prediction per test row and no test row lacks its trip duration;
    otherwise it raises.  The score it returns is never negative, and the
    model it returns is the one [fit] returned. *)
Theorem unit_score_is_nonnegative (train test : DataFrame)
  (model : BaseEstimator) (r : TrainerResult) :
  fit_and_score_sklearn train test model = Ok r ->
  (0 <= snd r)%Q /\
  fit model (map r_dropoff_location_id train) (map trip_duration train)
  = Ok (fst r) /\
  (exists pred_y,
      predict (fst r) (map r_dropoff_location_id test) = Ok pred_y /\
      length pred_y = length test) /\
  test <> [] /\
  Forall (fun row => trip_duration row <> None) test.
Proof.
  unfold fit_and_score_sklearn.
  destruct (fit model _ _) as [fitted|e]; simpl; [|discriminate].
  destruct (predict fitted _) as [pred_y|e] eqn:Ep; simpl; [|discriminate].
  destruct (mean_absolute_error _ pred_y) as [error|e] eqn:Em; simpl;
    [|discriminate].
  intros H. injection H as <-. simpl.
  apply mean_absolute_error_Ok in Em as (Hnn & Hne & Hlen & Hfin).
  rewrite length_map in Hlen.
  split; [assumption|]. split; [reflexivity|].
  split.
  { exists pred_y. split; [exact Ep|exact Hlen]. }
  split.
  - intros ->. now apply Hne.
  - apply Forall_forall. intros row Hin.
    rewrite Forall_forall in Hfin. apply Hfin. now apply in_map.
Qed.

Lemma unit_score_is_nonnegative_witness :
  exists r,
    fit_and_score_sklearn (firstn 3 Sample.batch) (skipn 3 Sample.batch)
      (Sample.constant "A" 600%Q) = Ok r /\
    snd r = 1800%Q /\
    (0 <= snd r)%Q.
Proof.
  eexists. split; [vm_compute; reflexivity|]. split; [reflexivity|].
  exact (proj1 (unit_score_is_nonnegative (firstn 3 Sample.batch)
                  (skipn 3 Sample.batch) (Sample.constant "A" 600%Q)
                  _ eq_refl)).
Defined.

(** X3.  With an empty list of routines a batch of at least
    [min_rows_per_partition] rows is still split and put in the object
    store, no unit is submitted, and the group returns a ranking that is
    present and empty, not the empty marker. *)
Theorem no_routine_gives_empty_ranking (w : World) (wk : Worker)
  (df : DataFrame) (i : Key) :
  (min_rows_per_partition <= length df)%nat ->
  train_and_evaluate w wk df [] i
  = ([RayPut; RayPut; RayGet 0] ++ printed_time w (MsgTrainingTime i),
     Ok (Some [])).
Proof.
  intros Hl.
  destruct (train_test_split_spec (rng wk) df)
    as (train & test & g' & Hsplit & _).
  { unfold min_rows_per_partition in Hl. lia. }
  now rewrite (train_and_evaluate_large w wk df [] i train test g' Hl Hsplit).
Qed.

Lemma no_routine_gives_empty_ranking_witness :
  (min_rows_per_partition <= length Sample.batch)%nat /\
  train_and_evaluate Sample.world Sample.worker Sample.batch [] (Some 1)
  = ([RayPut; RayPut; RayGet 0], Ok (Some [])).
Proof.
  assert (H : (min_rows_per_partition <= length Sample.batch)%nat)
    by (unfold min_rows_per_partition; simpl; lia).
  split; [exact H|].
  exact (no_routine_gives_empty_ranking Sample.world Sample.worker
           Sample.batch (Some 1) H).
Defined.

(** ** What a pipeline prints and what it submits *)

Lemma with_print_times_same (w : World) :
  with_print_times w (PRINT_TIMES w) = w.
Proof. now destruct w. Qed.

Lemma transform_batch_with_print_times (w : World) (b : bool) (df : Table) :
  transform_batch (with_print_times w b) df = transform_batch w df.
Proof. reflexivity. Qed.

Lemma printed_time_with_print_times (w : World) (b : bool) (msg : Msg) :
  printed_time (with_print_times w b) msg = if b then [Stdout msg] else [].
Proof. reflexivity. Qed.

Lemma actions_app (a b : list Event) : actions (a ++ b) = actions a ++ actions b.
Proof. apply filter_app. Qed.

Lemma actions_printed_time (w : World) (msg : Msg) :
  actions (printed_time w msg) = [].
Proof. unfold printed_time. now destruct (PRINT_TIMES w). Qed.

Lemma actions_submissions {A} (fn : A -> RemoteFn) (l : list A) :
  actions (map (fun x => Remote (fn x)) l) = map (fun x => Remote (fn x)) l.
Proof.
  unfold actions. induction l as [|x l IH]; simpl; [reflexivity|].
  now rewrite IH.
Qed.

Lemma filter_is_stdout_actions (tr : list Event) :
  filter is_stdout (actions tr) = [].
Proof.
  unfold actions. induction tr as [|e tr IH]; [reflexivity|].
  simpl. destruct (is_stdout e) eqn:E; simpl; [exact IH|].
  rewrite E. exact IH.
Qed.

Lemma In_printed_time (w : World) (msg : Msg) (e : Event) :
  In e (printed_time w msg) -> e = Stdout msg.
Proof.
  unfold printed_time.
  destruct (PRINT_TIMES w); simpl; [intros [H|[]]; now symmetry|intros []].
Qed.

(** The evaluation group under either setting of the flag: the same
    result, the same calls to Ray, and nothing else in the trace when the
    flag is off. *)
Lemma train_and_evaluate_flag (w : World) (wk : Worker) (df : DataFrame)
  (models : list BaseEstimator) (i : Key) :
  exists acts r,
    actions acts = acts /\
    forall b,
      outcome (train_and_evaluate (with_print_times w b) wk df models i) = r /\
      actions (trace (train_and_evaluate (with_print_times w b) wk df models i))
      = acts /\
      (b = false ->
       trace (train_and_evaluate (with_print_times w b) wk df models i) = acts).
Proof.
  destruct (Nat.lt_ge_cases (length df) min_rows_per_partition) as [Hs|Hl].
  - exists [], (Ok None). split; [reflexivity|]. intros b.
    rewrite train_and_evaluate_small by assumption.
    rewrite outcome_pair, trace_pair, actions_printed_time.
    repeat split. now intros ->.
  - destruct (train_test_split_spec (rng wk) df)
      as (train & test & g' & Hsplit & _).
    { unfold min_rows_per_partition in Hl. lia. }
    exists ([RayPut; RayPut]
              ++ map (fun m => Remote (FitAndScoreSklearn (repr m))) models
              ++ [RayGet (length models)]),
      (match ray_wait (units_sched wk)
              (map (fit_and_score_sklearn train test) models) with
       | Ok raw => Ok (Some (list_sort snd raw))
       | Raise e => Raise e
       end).
    assert (Hacts : actions ([RayPut; RayPut]
                      ++ map (fun m => Remote (FitAndScoreSklearn (repr m)))
                             models
                      ++ [RayGet (length models)])
                    = [RayPut; RayPut]
                      ++ map (fun m => Remote (FitAndScoreSklearn (repr m)))
                             models
                      ++ [RayGet (length models)]).
    { rewrite !actions_app, actions_submissions. reflexivity. }
    split; [exact Hacts|]. intros b.
    rewrite (train_and_evaluate_large _ wk df models i train test g' Hl Hsplit).
    destruct (ray_wait (units_sched wk)
              (map (fit_and_score_sklearn train test) models))
      as [raw|e]; rewrite outcome_pair, trace_pair.
    + split; [reflexivity|]. split.
      * rewrite !app_assoc, actions_app, actions_printed_time, app_nil_r.
        rewrite <- !app_assoc. exact Hacts.
      * intros ->. rewrite printed_time_with_print_times.
        now rewrite !app_nil_r.
    + split; [reflexivity|]. split; [exact Hacts|reflexivity].
Qed.

Lemma task_flag (w : World) (wk : Worker) (data : TaskData)
  (file_name : string) (i : Key) (models : list BaseEstimator)
  (load_data_func : option (string -> Key -> Exc Table)) :
  exists acts r,
    actions acts = acts /\
    forall b,
      outcome (task (with_print_times w b) wk data file_name i models
                 load_data_func) = r /\
      actions (trace (task (with_print_times w b) wk data file_name i models
                        load_data_func)) = acts /\
      (b = false ->
       trace (task (with_print_times w b) wk data file_name i models
                load_data_func) = acts).
Proof.
  destruct load_data_func as [load|], data as [file|t].
  - destruct (load file i) as [t|e] eqn:El.
    + destruct (transform_batch w t) as [df|e] eqn:Et.
      * destruct (train_and_evaluate_flag w wk df models i)
          as (acts & r & Hacts & Hgroup).
        exists acts,
          (match r with
           | Ok ranked => Ok (file_name, i, ranked)
           | Raise e => Raise e
           end).
        split; [exact Hacts|]. intros b.
        destruct (Hgroup b) as (Hr & Ha & Hoff).
        rewrite task_direct_eq, El, transform_batch_with_print_times, Et.
        cbv zeta. rewrite outcome_pair, trace_pair, Hr.
        split; [reflexivity|]. split.
        -- now rewrite !actions_app, !actions_printed_time, Ha.
        -- intros Hb. rewrite (Hoff Hb). subst b. reflexivity.
      * exists [], (Raise e). split; [reflexivity|]. intros b.
        rewrite task_direct_eq, El, transform_batch_with_print_times, Et.
        rewrite outcome_pair, trace_pair, actions_printed_time.
        repeat split. now intros ->.
    + exists [], (Raise e). split; [reflexivity|]. intros b.
      rewrite task_direct_eq, El. repeat split.
  - exists [], (Raise (TypeError "expected a path")).
    split; [reflexivity|]. intros b. repeat split.
  - exists [], (Raise (TypeError "string indices must be integers")).
    split; [reflexivity|]. intros b. repeat split.
  - destruct (transform_batch w t) as [df|e] eqn:Et.
    + destruct (train_and_evaluate_flag w wk df models i)
        as (acts & r & Hacts & Hgroup).
      exists acts,
        (match r with
         | Ok ranked => Ok (file_name, i, ranked)
         | Raise e => Raise e
         end).
      split; [exact Hacts|]. intros b.
      destruct (Hgroup b) as (Hr & Ha & Hoff).
      rewrite task_staged_eq, transform_batch_with_print_times, Et.
      cbv zeta. rewrite outcome_pair, trace_pair, Hr.
      split; [reflexivity|]. split.
      * now rewrite !actions_app, !actions_printed_time, Ha.
      * intros Hb. rewrite (Hoff Hb). subst b. reflexivity.
    + exists [], (Raise e). split; [reflexivity|]. intros b.
      rewrite task_staged_eq, transform_batch_with_print_times, Et.
      repeat split.
Qed.

(** X4.  PRINT_TIMES changes what a pipeline prints and nothing else: under
    either setting the pipeline returns the same result or raises the same
    exception and makes the same calls to Ray, and with the flag off (the
    notebook's default) its trace holds those calls only, no printed
    line. *)
Theorem print_times_only_changes_output (w : World) (flag : bool)
  (wk : Worker) (data : TaskData) (file_name : string) (i : Key)
  (models : list BaseEstimator)
  (load_data_func : option (string -> Key -> Exc Table)) :
  let quiet := task (with_print_times w false) wk data file_name i models
                 load_data_func in
  let other := task (with_print_times w flag) wk data file_name i models
                 load_data_func in
  outcome other = outcome quiet /\
  actions (trace other) = trace quiet /\
  filter is_stdout (trace quiet) = [].
Proof.
  cbv zeta.
  destruct (task_flag w wk data file_name i models load_data_func)
    as (acts & r & Hacts & H).
  destruct (H flag) as (Hr & Ha & _).
  destruct (H false) as (Hr' & _ & Hoff).
  rewrite Hr, Hr', Ha, (Hoff eq_refl).
  repeat split.
  rewrite <- Hacts. apply filter_is_stdout_actions.
Qed.

(** ** Units are submitted only for a transformed batch of enough rows *)

Lemma train_and_evaluate_remote (w : World) (wk : Worker) (df : DataFrame)
  (models : list BaseEstimator) (i : Key) (fn : RemoteFn) :
  In (Remote fn) (trace (train_and_evaluate w wk df models i)) ->
  (min_rows_per_partition <= length df)%nat /\
  exists m, In m models /\ fn = FitAndScoreSklearn (repr m).
Proof.
  destruct (Nat.lt_ge_cases (length df) min_rows_per_partition) as [Hs|Hl].
  - rewrite train_and_evaluate_small, trace_pair by assumption.
    intros H. apply In_printed_time in H. discriminate.
  - destruct (train_test_split_spec (rng wk) df)
      as (train & test & g' & Hsplit & _).
    { unfold min_rows_per_partition in Hl. lia. }
    rewrite (train_and_evaluate_large w wk df models i train test g' Hl Hsplit).
    intros H. split; [assumption|].
    assert (Hin : In (Remote fn)
                     (map (fun m => Remote (FitAndScoreSklearn (repr m)))
                          models)).
    { destruct (ray_wait (units_sched wk)
              (map (fit_and_score_sklearn train test) models));
        rewrite trace_pair in H;
        repeat (apply in_app_or in H as [H|H]); try assumption;
        try (apply In_printed_time in H; discriminate);
        simpl in H; repeat (destruct H as [H|H]; try discriminate);
        contradiction. }
    apply in_map_iff in Hin as (m & Hm & Hin).
    exists m. split; [assumption|]. now injection Hm as <-.
Qed.

(** X5.  A pipeline submits trainer units only after it has loaded and
    transformed its batch and found at least [min_rows_per_partition] rows
    in it; the units it submits are those of the routines it was given.  A
    batch that fails to load or to transform, or is too small, costs no
    unit. *)
Theorem units_only_for_a_transformed_batch (w : World) (wk : Worker)
  (data : TaskData) (file_name : string) (i : Key)
  (models : list BaseEstimator)
  (load_data_func : option (string -> Key -> Exc Table)) (fn : RemoteFn) :
  In (Remote fn)
     (trace (task w wk data file_name i models load_data_func)) ->
  exists t df,
    ((exists load file, load_data_func = Some load /\ data = PathData file /\
                        load file i = Ok t) \/
     (load_data_func = None /\ data = FrameData t)) /\
    transform_batch w t = Ok df /\
    length df = length t /\
    (min_rows_per_partition <= length df)%nat /\
    exists m, In m models /\ fn = FitAndScoreSklearn (repr m).
Proof.
  destruct load_data_func as [load|], data as [file|t].
  - rewrite task_direct_eq.
    destruct (load file i) as [t|e] eqn:El; [|intros []].
    destruct (transform_batch w t) as [df|e] eqn:Et.
    + cbv zeta. rewrite trace_pair. intros H.
      apply in_app_or in H as [H|H];
        [apply In_printed_time in H; discriminate|].
      apply in_app_or in H as [H|H];
        [apply In_printed_time in H; discriminate|].
      apply train_and_evaluate_remote in H as (Hl & Hm).
      exists t, df. split; [left; now exists load, file|].
      split; [exact Et|]. split; [|now split].
      apply transform_batch_Ok in Et. symmetry.
      eapply Forall2_length; eassumption.
    + rewrite trace_pair. intros H. apply In_printed_time in H. discriminate.
  - intros [].
  - intros [].
  - rewrite task_staged_eq.
    destruct (transform_batch w t) as [df|e] eqn:Et; [|intros []].
    cbv zeta. rewrite trace_pair. intros H.
    apply in_app_or in H as [H|H];
      [apply In_printed_time in H; discriminate|].
    apply train_and_evaluate_remote in H as (Hl & Hm).
    exists t, df. split; [now right|].
    split; [exact Et|]. split; [|now split].
    apply transform_batch_Ok in Et. symmetry.
    eapply Forall2_length; eassumption.
Qed.

Lemma units_only_for_a_transformed_batch_witness :
  In (Remote (FitAndScoreSklearn "B"))
     (trace (task Sample.world Sample.worker (PathData "may.parquet")
               "may.parquet" (Some 1) Sample.models
               (Some (read_data Sample.world)))) /\
  exists t df,
    read_data Sample.world "may.parquet" (Some 1) = Ok t /\
    transform_batch Sample.world t = Ok df /\
    (min_rows_per_partition <= length df)%nat.
Proof.
  assert (H : In (Remote (FitAndScoreSklearn "B"))
                (trace (task Sample.world Sample.worker
                          (PathData "may.parquet") "may.parquet" (Some 1)
                          Sample.models (Some (read_data Sample.world)))))
    by (vm_compute; tauto).
  split; [exact H|].
  destruct (units_only_for_a_transformed_batch _ _ _ _ _ _ _ _ H)
    as (t & df & Hload & Htr & _ & Hl & _).
  exists t, df. split; [|split; assumption].
  destruct Hload as [(load & file & Hs & Hd & Hl')|[Hn _]]; [|discriminate].
  injection Hs as <-. injection Hd as <-. exact Hl'.
Defined.

(** ** What the results of a run look like *)

Lemma StronglySorted_best_first (ranked : list TrainerResult) :
  StronglySorted (key_le snd) ranked -> best_first ranked.
Proof.
  destruct ranked as [|best rest]; [constructor|].
  intros H. inversion H as [|? ? _ Hall]; subst.
  simpl. constructor; [apply Qle_refl|exact Hall].
Qed.

Lemma task_direct_result (w : World) (wk : Worker) (file file_name : string)
  (i : Key) (models : list BaseEstimator) (r : PipelineResult) :
  outcome (task w wk (PathData file) file_name i models (Some (read_data w)))
  = Ok r ->
  partition_of r = (file_name, i) /\
  exists t,
    read_table w file all_columns = Some t /\
    (snd r = None <-> (length (rows_of t i) < min_rows_per_partition)%nat) /\
    (forall ranked, snd r = Some ranked ->
                    length ranked = length models /\ best_first ranked).
Proof.
  intros H. split; [now apply task_direct_partition in H|].
  rewrite task_direct_eq in H. unfold read_data in H.
  destruct (read_table w file all_columns) as [t|]; [|discriminate].
  exists t. split; [reflexivity|].
  fold (rows_of t i) in H. unfold to_pandas in H.
  destruct (pandas_holds w (rows_of t i)); [|discriminate].
  destruct (transform_batch w (rows_of t i)) as [df|e] eqn:Et; [|discriminate].
  assert (Hlen : length df = length (rows_of t i)).
  { apply transform_batch_Ok in Et. symmetry.
    eapply Forall2_length; eassumption. }
  cbv zeta in H. rewrite outcome_pair in H. rewrite <- Hlen.
  destruct (Nat.lt_ge_cases (length df) min_rows_per_partition) as [Hs|Hl].
  - rewrite train_and_evaluate_small, outcome_pair in H by assumption.
    injection H as <-. simpl. split; [tauto|discriminate].
  - destruct (train_test_split_spec (rng wk) df)
      as (train & test & g' & Hsplit & _).
    { unfold min_rows_per_partition in Hl. lia. }
    rewrite (train_and_evaluate_large w wk df models i train test g' Hl Hsplit)
      in H.
    destruct (ray_wait (units_sched wk)
              (map (fit_and_score_sklearn train test) models))
      as [raw|e] eqn:Eseq; rewrite outcome_pair in H; [|discriminate].
    injection H as <-. simpl. split.
    + split; [discriminate|lia].
    + intros ranked Hr. injection Hr as <-. split.
      * rewrite list_sort_length. apply ray_wait_Ok in Eseq.
        apply mapE_Ok_length in Eseq.
        now rewrite length_map in Eseq.
      * apply StronglySorted_best_first, list_sort_StronglySorted.
Qed.

Lemma pipelines_from_Forall (w : World) (c : Cluster)
  (P : PipelineResult -> Prop) (models : list BaseEstimator)
  (pairs : list (string * Key)) (j : nat) (results : list PipelineResult) :
  (forall wk file i r,
      outcome (task w wk (PathData file) file i models (Some (read_data w)))
      = Ok r -> P r) ->
  sequenceE (map outcome (pipelines_from w c j pairs models)) = Ok results ->
  Forall P results.
Proof.
  intros HP. unfold sequenceE.
  revert j results; induction pairs as [|[f k] pairs IH]; simpl;
    intros j results H.
  - injection H as <-. constructor.
  - destruct (outcome (task w (workers c j) (PathData f) f k models
                         (Some (read_data w)))) as [r|e] eqn:Er;
      simpl in H; [|discriminate].
    destruct (mapE (fun r => r)
                (map outcome (pipelines_from w c (S j) pairs models)))
      as [rs|e] eqn:Ers; simpl in H; [|discriminate].
    injection H as <-. constructor; [eapply HP; eassumption|].
    now apply (IH (S j)).
Qed.

(** X6.  Every result a direct-mode run returns names a readable source
    and carries the empty marker exactly when that source holds fewer than
    [min_rows_per_partition] rows of the result's key; otherwise it carries
    a ranking with one entry per routine whose first entry has the least
    error of all. *)
Theorem run_results_are_marker_or_full_ranking (w : World) (c : Cluster)
  (files : list string) (models : list BaseEstimator)
  (results : list PipelineResult) :
  outcome (run c files (task_generator w c) models) = Ok results ->
  Forall (fun r =>
            exists t,
              read_table w (fst (partition_of r)) all_columns = Some t /\
              (snd r = None <->
               (length (rows_of t (snd (partition_of r)))
                < min_rows_per_partition)%nat) /\
              (forall ranked,
                  snd r = Some ranked ->
                  length ranked = length models /\ best_first ranked))
         results.
Proof.
  rewrite (run_outcome c files _ models _ _ (task_generator_eq w c files models)).
  intros H. apply ray_wait_Ok in H. revert H.
  apply pipelines_from_Forall.
  intros wk file i r H.
  apply task_direct_result in H as (Hp & t & Ht & Hnone & Hsome).
  exists t. rewrite Hp. simpl. auto.
Qed.

Lemma run_results_are_marker_or_full_ranking_witness :
  exists results,
    outcome (run Sample.cluster ["may.parquet"]
               (task_generator Sample.world Sample.cluster) Sample.models)
    = Ok results /\
    map (fun r => option_map (map (fun tr => repr (fst tr))) (snd r)) results
    = [Some ["C"; "A"; "B"]; None] /\
    Forall (fun r => forall ranked, snd r = Some ranked ->
                                    length ranked = 3%nat) results.
Proof.
  eexists. split; [vm_compute; reflexivity|]. split; [reflexivity|].
  eapply Forall_impl;
    [|exact (run_results_are_marker_or_full_ranking Sample.world
               Sample.cluster ["may.parquet"] Sample.models _ eq_refl)].
  intros r (t & _ & _ & H) ranked Hr. exact (proj1 (H ranked Hr)).
Defined.

(** ** The batches of a source *)

Lemma flat_map_nil {A B} (l : list A) :
  flat_map (fun _ : A => @nil B) l = [].
Proof. induction l as [|x l IH]; simpl; [reflexivity|exact IH]. Qed.

Lemma flat_map_ext_on {A B} (f g : A -> list B) (l : list A) :
  (forall x, In x l -> f x = g x) -> flat_map f l = flat_map g l.
Proof.
  induction l as [|x l IH]; simpl; intros H; [reflexivity|].
  rewrite (H x (or_introl eq_refl)), IH; auto.
Qed.

Lemma flat_map_app_Permutation {A B} (f g : A -> list B) (l : list A) :
  Permutation (flat_map (fun x => f x ++ g x) l)
              (flat_map f l ++ flat_map g l).
Proof.
  induction l as [|x l IH]; simpl; [constructor|].
  rewrite IH, <- !app_assoc. apply Permutation_app_head.
  rewrite !app_assoc. apply Permutation_app_tail, Permutation_app_comm.
Qed.

Lemma key_matches_true (k v : Key) :
  key_matches k v = true <-> exists z, k = Some z /\ v = Some z.
Proof.
  destruct k as [a|], v as [b|]; simpl; split; try discriminate.
  - intros H. apply Z.eqb_eq in H. subst. now exists b.
  - intros (z & Hk & Hv). injection Hk as ->. injection Hv as ->.
    apply Z.eqb_refl.
  - intros (z & _ & H). discriminate.
  - intros (z & H & _). discriminate.
  - intros (z & H & _). discriminate.
Qed.

Lemma one_key_takes_the_row (r : RawRow) (ks : list Key) :
  NoDup ks ->
  (has_key r = true -> In (pickup_location_id r) ks) ->
  flat_map (fun k => if key_matches k (pickup_location_id r) then [r] else [])
           ks
  = if has_key r then [r] else [].
Proof.
  unfold has_key. destruct (pickup_location_id r) as [z|].
  - intros Hnd Hin. specialize (Hin eq_refl).
    induction Hnd as [|k ks Hnotin Hnd IH]; [contradiction|].
    simpl. destruct Hin as [->|Hin].
    + simpl. rewrite Z.eqb_refl. simpl. f_equal.
      transitivity (flat_map (fun _ : Key => @nil RawRow) ks);
        [|apply flat_map_nil].
      apply flat_map_ext_on. intros k Hk.
      destruct (key_matches k (Some z)) eqn:E; [|reflexivity].
      apply key_matches_true in E as (z' & -> & Hz). injection Hz as ->.
      contradiction.
    + rewrite (IH Hin).
      destruct (key_matches k (Some z)) eqn:E; [|reflexivity].
      apply key_matches_true in E as (z' & -> & Hz). injection Hz as ->.
      contradiction.
  - intros _ _.
    transitivity (flat_map (fun _ : Key => @nil RawRow) ks);
      [|apply flat_map_nil].
    apply flat_map_ext. intros k. now destruct k.
Qed.

Lemma rows_cover (ks : list Key) (t : Table) :
  NoDup ks ->
  (forall r, In r t -> has_key r = true -> In (pickup_location_id r) ks) ->
  Permutation (flat_map (rows_of t) ks) (filter has_key t).
Proof.
  intros Hnd. induction t as [|r t IH]; intros Hin.
  - unfold rows_of. simpl. now rewrite flat_map_nil.
  - assert (Hstep : forall k,
               rows_of (r :: t) k
               = (if key_matches k (pickup_location_id r) then [r] else [])
                 ++ rows_of t k).
    { intros k. unfold rows_of. simpl.
      now destruct (key_matches k (pickup_location_id r)). }
    rewrite (flat_map_ext _ _ Hstep), flat_map_app_Permutation.
    rewrite one_key_takes_the_row;
      [|assumption|intros; apply Hin; [now left|assumption]].
    simpl. rewrite IH by (intros; apply Hin; [now right|assumption]).
    now destruct (has_key r).
Qed.

Lemma rows_of_located_nonempty (t : Table) (z : Z) :
  In (Some z) (map pickup_location_id t) -> rows_of t (Some z) <> [].
Proof.
  intros Hin Hnil. apply in_map_iff in Hin as (r & Hr & Hin).
  assert (H : In r (rows_of t (Some z))).
  { apply filter_In. split; [assumption|]. rewrite Hr. simpl.
    apply Z.eqb_refl. }
  rewrite Hnil in H. contradiction.
Qed.

Lemma read_table_key_column (w : World) (file : string) (t : Table) :
  read_table w file all_columns = Some t ->
  read_table w file key_column = Some t.
Proof.
  unfold read_table. destruct (parquet w file) as [f|]; [|discriminate].
  unfold has_columns, all_columns, key_column. cbn [forallb].
  destruct (existsb (String.eqb "pickup_location_id") (columns f)).
  - destruct (existsb (String.eqb "pickup_at") (columns f)),
      (existsb (String.eqb "dropoff_at") (columns f)),
      (existsb (String.eqb "dropoff_location_id") (columns f));
      simpl; intros H; (discriminate || exact H).
  - rewrite !andb_false_r. discriminate.
Qed.

(** X7.  For a source whose four columns can be read, the locator reads
    the same rows, and the batch either loader hands to a pipeline, when
    the batch converts, is the rows of the source whose pickup_location_id
    equals the key, in file order: the direct loader returns it for the
    key, and the load task of staged mode, when every batch converts,
    returns exactly the list of the distinct keys each with that batch.
    Over the keys the locator lists, the batches hold every row that has a
    pickup_location_id exactly once; the batch of a located non-null key is
    never empty, and the batch of the null key is always empty, so rows
    without a pickup_location_id reach no routine. *)
Theorem batches_partition_the_source (w : World) (file : string) (t : Table) :
  read_table w file all_columns = Some t ->
  let keys := unique (map pickup_location_id t) in
  read_table w file key_column = Some t /\
  (forall k, pandas_holds w (rows_of t k) = true ->
             read_data w file k = Ok (rows_of t k)) /\
  (Forall (fun k => pandas_holds w (rows_of t k) = true) keys ->
   outcome (read_into_object_store w file)
   = Ok (map (fun k => (k, rows_of t k)) keys)) /\
  Permutation (flat_map (rows_of t) keys) (filter has_key t) /\
  (forall z, In (Some z) keys -> rows_of t (Some z) <> []) /\
  rows_of t None = [].
Proof.
  intros Ht. cbv zeta.
  split; [now apply read_table_key_column|].
  split.
  { intros k Hk. unfold read_data, to_pandas. rewrite Ht.
    fold (rows_of t k). now rewrite Hk. }
  split.
  { intros Hall.
    now rewrite (read_into_object_store_staged w file t Ht Hall). }
  split.
  - apply rows_cover; [apply unique_NoDup|].
    intros r Hin _. apply unique_In. now apply in_map.
  - split.
    + intros z Hz. apply rows_of_located_nonempty. now apply unique_In.
    + unfold rows_of. clear Ht.
      induction t as [|r t' IH]; [reflexivity|exact IH].
Qed.

Lemma batches_partition_the_source_witness :
  read_table Sample.world "may.parquet" all_columns = Some Sample.may /\
  map (fun k => length (rows_of Sample.may k))
      (unique (map pickup_location_id Sample.may)) = [4; 1]%nat /\
  outcome (read_into_object_store Sample.world "may.parquet")
  = Ok [(Some 1, rows_of Sample.may (Some 1));
        (Some 2, rows_of Sample.may (Some 2))] /\
  Permutation
    (flat_map (rows_of Sample.may) (unique (map pickup_location_id Sample.may)))
    (filter has_key Sample.may).
Proof.
  split; [reflexivity|]. split; [reflexivity|].
  destruct (batches_partition_the_source Sample.world "may.parquet"
              Sample.may eq_refl) as (_ & _ & Hload & Hperm & _).
  split; [|exact Hperm].
  apply Hload. repeat constructor.
Defined.

(** ** Sources that cannot be read *)

Lemma located_filter_readable (w : World) (files : list string) :
  located w (filter (readable w) files) = located w files.
Proof.
  induction files as [|f files IH]; [reflexivity|].
  simpl. unfold readable at 1.
  destruct (read_table w f key_column) as [t|] eqn:Et; simpl; [|exact IH].
  now rewrite Et, IH.
Qed.

(** X8.  In direct mode a source that cannot be read is skipped without a
    trace: leaving it out of the list of sources changes nothing of what
    the generator submits, of the workers the pipelines land on, of the
    results or of what the run prints. *)
Theorem unreadable_sources_are_skipped (w : World) (c : Cluster)
  (files : list string) (models : list BaseEstimator) :
  task_generator w c files models
  = task_generator w c (filter (readable w) files) models /\
  run c files (task_generator w c) models
  = run c (filter (readable w) files) (task_generator w c) models.
Proof.
  assert (H : task_generator w c files models
              = task_generator w c (filter (readable w) files) models).
  { now rewrite !task_generator_eq, located_filter_readable. }
  split; [exact H|]. unfold run. now rewrite H.
Qed.

(** ** The dict of staged groups, exactly *)

Lemma dict_set_add_key {V} (val : string -> V) (ks : list string) (f : string) :
  dict_set (map (fun k => (k, val k)) ks) f (val f)
  = map (fun k => (k, val k)) (add_key ks f).
Proof.
  unfold add_key. induction ks as [|k ks IH]; [reflexivity|].
  simpl. rewrite (String.eqb_sym f k).
  destruct (String.eqb_spec k f) as [->|Hne]; simpl; [reflexivity|].
  rewrite IH. now destruct (existsb (String.eqb f) ks).
Qed.

Lemma dict_fold_keys {V} (val : string -> V) (files ks : list string) :
  fold_left (fun d fr => dict_set d (fst fr) (snd fr))
            (combine files (map val files)) (map (fun k => (k, val k)) ks)
  = map (fun k => (k, val k)) (fold_left add_key files ks).
Proof.
  revert ks; induction files as [|f files IH]; intros ks; [reflexivity|].
  simpl. now rewrite dict_set_add_key, IH.
Qed.

Lemma group_refs_of_dict_keys (w : World) (files : list string) :
  group_refs_of w files
  = map (fun f => (f, staged_groups w f)) (dict_keys files).
Proof. apply (dict_fold_keys (staged_groups w) files []). Qed.

Lemma fold_add_key_NoDup (files ks : list string) :
  NoDup (ks ++ files) -> fold_left add_key files ks = ks ++ files.
Proof.
  revert ks; induction files as [|f files IH]; intros ks Hnd; simpl.
  - now rewrite app_nil_r.
  - assert (Hfresh : existsb (String.eqb f) ks = false).
    { destruct (existsb (String.eqb f) ks) eqn:E; [|reflexivity].
      apply existsb_exists in E as (k & Hin & Hk).
      apply String.eqb_eq in Hk. subst k.
      apply NoDup_remove_2 in Hnd. exfalso. apply Hnd.
      apply in_or_app. now left. }
    unfold add_key at 2. rewrite Hfresh.
    rewrite IH; rewrite <- app_assoc; [reflexivity|exact Hnd].
Qed.

Lemma dict_keys_NoDup (files : list string) :
  NoDup files -> dict_keys files = files.
Proof. intros H. apply (fold_add_key_NoDup files []). exact H. Qed.

Lemma dict_keys_In (files : list string) (f : string) :
  In f (dict_keys files) -> In f files.
Proof.
  assert (Hsub : forall fs ks,
             In f (fold_left add_key fs ks) -> In f ks \/ In f fs).
  { induction fs as [|x fs IH]; simpl; intros ks H; [now left|].
    apply IH in H as [H|H]; [|now right; right].
    unfold add_key in H. destruct (existsb (String.eqb x) ks); [now left|].
    apply in_app_or in H as [H|[H|[]]]; [now left|now right; left]. }
  intros Hin. destruct (Hsub files [] Hin) as [[]|H]. exact H.
Qed.

Lemma Forall_dict_keys (P : string -> Prop) (files : list string) :
  Forall P files -> Forall P (dict_keys files).
Proof.
  rewrite !Forall_forall. intros H f Hin. apply H. now apply dict_keys_In.
Qed.

(** ** Staged and direct pipelines agree *)

Lemma staged_task_outcome (w : World) (wk : Worker) (file : string)
  (t : Table) (i : Key) (models : list BaseEstimator) :
  read_table w file all_columns = Some t ->
  pandas_holds w (rows_of t i) = true ->
  outcome (task w wk (FrameData (rows_of t i)) file i models None)
  = outcome (task w wk (PathData file) file i models (Some (read_data w))).
Proof.
  intros Ht Hi. rewrite task_staged_eq, task_direct_eq.
  unfold read_data, to_pandas. rewrite Ht. fold (rows_of t i). rewrite Hi.
  destruct (transform_batch w (rows_of t i)) as [df|e]; [|reflexivity].
  cbv zeta. now rewrite !outcome_pair.
Qed.

Lemma staged_from_outcomes (w : World) (c : Cluster) (j : nat) (file : string)
  (t : Table) (keys : list Key) (models : list BaseEstimator) :
  read_table w file all_columns = Some t ->
  Forall (fun k => pandas_holds w (rows_of t k) = true) keys ->
  map outcome (staged_from w c j file
                 (map (fun k => (k, rows_of t k)) keys) models)
  = map outcome (pipelines_from w c j (map (pair file) keys) models).
Proof.
  intros Ht Hall. revert j; induction Hall as [|k keys Hk _ IH]; intros j;
    [reflexivity|].
  simpl. now rewrite IH, (staged_task_outcome w _ file t k models Ht Hk).
Qed.

Lemma located_one (w : World) (f : string) :
  (forall t, read_table w f key_column = Some t ->
             read_table w f all_columns = Some t) ->
  match read_table w f key_column with
  | Some t => map (pair f) (unique (map pickup_location_id t))
  | None => []
  end
  = match read_table w f all_columns with
    | Some t => map (pair f) (unique (map pickup_location_id t))
    | None => []
    end.
Proof.
  intros H. destruct (read_table w f key_column) as [t|] eqn:Ek.
  - now rewrite (H t eq_refl).
  - destruct (read_table w f all_columns) as [t|] eqn:Ea; [|reflexivity].
    apply read_table_key_column in Ea. congruence.
Qed.

Lemma groups_from_outcomes (w : World) (c : Cluster) (j : nat)
  (files : list string) (models : list BaseEstimator) :
  Forall (fun f => forall t, read_table w f key_column = Some t ->
                             read_table w f all_columns = Some t) files ->
  Forall (load_returns w) files ->
  map outcome (groups_from w c j
                 (map (fun f => (f, staged_groups w f)) files) models)
  = map outcome (pipelines_from w c j (located w files) models).
Proof.
  intros Hcols. revert j.
  induction Hcols as [|f files Hf _ IH]; intros j Hloads; [reflexivity|].
  inversion Hloads as [|? ? [groups Hg] Hrest]; subst.
  cbn [map groups_from located flat_map].
  rewrite (located_one w f Hf).
  rewrite pipelines_from_app, !map_app, (IH _ Hrest).
  apply read_into_object_store_returns in Hg as [_ Hholds].
  unfold staged_groups at 1 2.
  destruct (read_table w f all_columns) as [t|] eqn:Et.
  - rewrite (staged_from_outcomes w c j f t _ models Et (Hholds t eq_refl)).
    now rewrite !length_map.
  - reflexivity.
Qed.

Lemma pairs_of_staged_groups (w : World) (fs : list string) :
  Forall (fun f => forall t, read_table w f key_column = Some t ->
                             read_table w f all_columns = Some t) fs ->
  pairs_of_groups (map (fun f => (f, staged_groups w f)) fs) = located w fs.
Proof.
  unfold pairs_of_groups, located.
  induction 1 as [|f fs Hf _ IH]; [reflexivity|].
  simpl. rewrite IH, (located_one w f Hf).
  assert (E : map (fun kr : Key * Table => (f, fst kr)) (staged_groups w f)
              = match read_table w f all_columns with
                | Some locdf =>
                    map (pair f) (unique (map pickup_location_id locdf))
                | None => []
                end).
  { unfold staged_groups. destruct (read_table w f all_columns); [|reflexivity].
    now rewrite map_map. }
  now rewrite E.
Qed.

(** X9.  Staging through the object store changes how the batches travel,
    not what is computed.  Take at least one source (a placement group
    needs a bundle), sources of which the locator can read the key column
    only when all four columns can be read, and load tasks that all
    return.  Then a staged run returns what a direct run returns over the
    distinct sources in the order of their first occurrence, with the
    pipelines on the same workers; over sources that are pairwise
    distinct, it returns what the direct run over the same list returns.
    (The dict the staged generator keys by source makes a source listed
    twice count once.) *)
Theorem staged_run_agrees_with_direct_run (w : World) (c : Cluster)
  (files : list string) (models : list BaseEstimator) :
  files <> [] ->
  Forall (fun f => forall t, read_table w f key_column = Some t ->
                             read_table w f all_columns = Some t) files ->
  Forall (load_returns w) files ->
  outcome (run c files (task_generator_with_object_store w c) models)
  = outcome (run c (dict_keys files) (task_generator w c) models) /\
  staged_pairs w files = located w (dict_keys files) /\
  (NoDup files ->
   outcome (run c files (task_generator_with_object_store w c) models)
   = outcome (run c files (task_generator w c) models)).
Proof.
  intros Hne Hcols Hloads.
  assert (H : outcome (run c files (task_generator_with_object_store w c)
                         models)
              = outcome (run c (dict_keys files) (task_generator w c) models)).
  { rewrite (run_outcome c files _ models _ _
               (task_generator_with_object_store_outcome w c files models
                  Hne Hloads)).
    rewrite (run_outcome c (dict_keys files) _ models _ _
               (task_generator_eq w c (dict_keys files) models)).
    rewrite group_refs_of_dict_keys, groups_from_outcomes;
      [reflexivity|now apply Forall_dict_keys..]. }
  split; [exact H|]. split.
  - unfold staged_pairs.
    rewrite group_refs_of_dict_keys, pairs_of_staged_groups;
      [reflexivity|now apply Forall_dict_keys].
  - intros Hnd. rewrite H. now rewrite dict_keys_NoDup.
Qed.

Lemma staged_run_agrees_with_direct_run_witness :
  NoDup ["june.parquet"; "none.parquet"; "may.parquet"] /\
  dict_keys ["may.parquet"; "june.parquet"; "may.parquet"]
  = ["may.parquet"; "june.parquet"] /\
  outcome (run Sample.cluster ["june.parquet"; "none.parquet"; "may.parquet"]
             (task_generator_with_object_store Sample.world Sample.cluster)
             Sample.models)
  = outcome (run Sample.cluster ["june.parquet"; "none.parquet"; "may.parquet"]
               (task_generator Sample.world Sample.cluster) Sample.models).
Proof.
  assert (H : NoDup ["june.parquet"; "none.parquet"; "may.parquet"]).
  { repeat constructor; simpl; intros H;
      repeat (destruct H as [H|H]; [discriminate|]); exact H. }
  split; [exact H|]. split; [reflexivity|].
  assert (Hne : ["june.parquet"; "none.parquet"; "may.parquet"] <> [])
    by discriminate.
  assert (Hcols : Forall (fun f => forall t,
                              read_table Sample.world f key_column = Some t ->
                              read_table Sample.world f all_columns = Some t)
                         ["june.parquet"; "none.parquet"; "may.parquet"]).
  { repeat constructor; intros t Ht; exact Ht. }
  assert (Hloads : Forall (load_returns Sample.world)
                          ["june.parquet"; "none.parquet"; "may.parquet"]).
  { repeat constructor; eexists; vm_compute; reflexivity. }
  exact (proj2 (proj2 (staged_run_agrees_with_direct_run Sample.world
                         Sample.cluster
                         ["june.parquet"; "none.parquet"; "may.parquet"]
                         Sample.models Hne Hcols Hloads)) H).
Defined.

(** X10.  When no source can be read neither mode fails: the run returns
    the empty list and reports zero tasks.  In direct mode, where the
    locator reads the key column, that holds for the empty list of sources
    too; in staged mode, where the load tasks read the four columns, the
    list of sources is not empty. *)
Theorem nothing_readable_gives_an_empty_run (w : World) (c : Cluster)
  (files : list string) (models : list BaseEstimator) :
  (Forall (fun f => read_table w f key_column = None) files ->
   run c files (task_generator w c) models
   = ([Stdout MsgStarting; RayGet 0; Stdout MsgBlank; Stdout (MsgTotal 0 0);
       Stdout MsgTimeTaken],
      Ok [])) /\
  (files <> [] ->
   Forall (fun f => read_table w f all_columns = None) files ->
   outcome (run c files (task_generator_with_object_store w c) models)
   = Ok [] /\
   filter is_report
     (trace (run c files (task_generator_with_object_store w c) models))
   = [Stdout (MsgTotal 0 0)]).
Proof.
  split.
  - intros Hnone.
    assert (Hloc : located w files = []).
    { induction Hnone as [|f fs Hf _ IH]; [reflexivity|].
      simpl. now rewrite Hf. }
    rewrite run_direct_eq. cbv zeta. rewrite Hloc.
    cbn [pipelines_from map]. now rewrite ray_wait_nil.
  - intros Hne Hnone.
    assert (Hloads : Forall (load_returns w) files).
    { eapply Forall_impl; [|exact Hnone]. intros f Hf. exists [].
      now rewrite (read_into_object_store_unreadable w f Hf). }
    assert (Hgroups : forall j fs,
               Forall (fun f => read_table w f all_columns = None) fs ->
               groups_from w c j (map (fun f => (f, staged_groups w f)) fs)
                 models = []).
    { intros j fs. induction 1 as [|f fs Hf _ IH]; [reflexivity|].
      simpl. unfold staged_groups at 1 2. rewrite Hf. simpl.
      now rewrite Nat.add_0_r. }
    assert (Hpairs : forall fs,
               Forall (fun f => read_table w f all_columns = None) fs ->
               pairs_of_groups (map (fun f => (f, staged_groups w f)) fs)
               = []).
    { intros fs. unfold pairs_of_groups.
      induction 1 as [|f fs Hf _ IH]; [reflexivity|].
      simpl. unfold staged_groups at 1. now rewrite Hf. }
    assert (Hkeys : Forall (fun f => read_table w f all_columns = None)
                           (dict_keys files))
      by now apply Forall_dict_keys.
    rewrite (run_eq c files _ models _ _
               (task_generator_with_object_store_outcome w c files models
                  Hne Hloads)).
    rewrite group_refs_of_dict_keys, (Hgroups 0%nat _ Hkeys).
    cbn [map]. rewrite ray_wait_nil, outcome_pair, trace_pair.
    split; [reflexivity|].
    unfold staged_pairs.
    rewrite group_refs_of_dict_keys, (Hpairs _ Hkeys).
    cbn [map app filter is_report].
    rewrite !filter_app, filter_is_report_submissions. reflexivity.
Qed.

Lemma nothing_readable_gives_an_empty_run_witness :
  Forall (fun f => read_table Sample.world f key_column = None)
         ["none.parquet"; "nowhere.parquet"] /\
  outcome (run Sample.cluster ["none.parquet"; "nowhere.parquet"]
             (task_generator Sample.world Sample.cluster) Sample.models)
  = Ok [] /\
  outcome (run Sample.cluster ["none.parquet"; "nowhere.parquet"]
             (task_generator_with_object_store Sample.world Sample.cluster)
             Sample.models)
  = Ok [].
Proof.
  assert (H : Forall (fun f => read_table Sample.world f key_column = None)
                     ["none.parquet"; "nowhere.parquet"])
    by (repeat constructor).
  assert (H' : Forall (fun f => read_table Sample.world f all_columns = None)
                      ["none.parquet"; "nowhere.parquet"])
    by (repeat constructor).
  assert (Hne : ["none.parquet"; "nowhere.parquet"] <> []) by discriminate.
  split; [exact H|].
  destruct (nothing_readable_gives_an_empty_run Sample.world Sample.cluster
              ["none.parquet"; "nowhere.parquet"] Sample.models)
    as (Hrun & Hstaged).
  split; [now rewrite (Hrun H)|].
  exact (proj1 (Hstaged Hne H')).
Defined.

(** ** The report line *)

Lemma report_counts_coincide_witness :
  In (Stdout (MsgTotal 3 3))
     (trace (run Sample.cluster ["may.parquet"; "june.parquet"]
               (task_generator Sample.world Sample.cluster) Sample.models)) /\
  exists results,
    outcome (run Sample.cluster ["may.parquet"; "june.parquet"]
               (task_generator Sample.world Sample.cluster) Sample.models)
    = Ok results /\
    length (filter (fun r => match snd r with Some _ => true | None => false end)
                   results) = 2%nat /\
    (3 = 3)%nat.
Proof.
  assert (H : In (Stdout (MsgTotal 3 3))
                (trace (run Sample.cluster ["may.parquet"; "june.parquet"]
                          (task_generator Sample.world Sample.cluster)
                          Sample.models)))
    by (vm_compute; tauto).
  split; [exact H|].
  eexists. split; [vm_compute; reflexivity|]. split; [reflexivity|].
  exact (report_counts_coincide Sample.world Sample.cluster
           ["may.parquet"; "june.parquet"] Sample.models 3 3 H).
Defined.

